(** * Booking backend: availability, bookings, overrides and admin tokens

    A shallow embedding of the two Express servers of the repository:

    - the server with the admin surface (public router, admin router,
      [authMiddleware]), embedded in [Module Booking];
    - the stand-alone [server.js], embedded in [Module ServerJs].

    The stores [bookings] and [availabilityOverrides] are plain objects used
    as dictionaries keyed by strings.  They are embedded as finite maps over
    their own properties; reading [store[key]] also sees the members every
    plain object inherits from [Object.prototype] ([Js.get]).  Request fields
    are JSON strings or absent ([option string]).

    A handler that throws is answered by Express with status 500.  An
    override update whose date names an inherited member writes onto that
    built-in object and not into a store: the handlers below give the answer
    of that request and leave the stores as they are, and the process after
    such a write (every object then inherits the written entries) is not a
    state of this development. *)

From Stdlib Require Import ZArith List Ascii String Bool Lia.
From stdpp Require Import base option list strings gmap.

Local Open Scope string_scope.
Local Open Scope Z_scope.

(** ** JavaScript primitives used by the handlers *)

Module Js.

(** [!v] for a value that is a string or [undefined]. *)
Definition falsy (v : option string) : bool :=
  match v with
  | None => true
  | Some s => if decide (s = "") then true else false
  end.

(** [\d] (without the unicode flag): an ASCII decimal digit. *)
Definition is_digit (c : ascii) : bool :=
  ((48 <=? nat_of_ascii c) && (nat_of_ascii c <=? 57))%nat.

Definition digit_value (c : ascii) : Z := Z.of_nat (nat_of_ascii c) - 48.

(** Atoms of an anchored regular expression without alternation. *)
Inductive atom :=
| Digit
| Lit (c : ascii).

Definition atom_matches (a : atom) (c : ascii) : bool :=
  match a with
  | Digit => is_digit c
  | Lit c' => if decide (c = c') then true else false
  end.

(** [/^a1 a2 ... an$/.test(s)] *)
Fixpoint regex_test (re : list atom) (s : string) : bool :=
  match re, s with
  | [], EmptyString => true
  | a :: re', String c s' => atom_matches a c && regex_test re' s'
  | _, _ => false
  end.

(** [/^\d{4}-\d{2}-\d{2}$/] *)
Definition date_regex : list atom :=
  [Digit; Digit; Digit; Digit; Lit "-"; Digit; Digit; Lit "-"; Digit; Digit].

(** [s.startsWith(p)] *)
Fixpoint startsWith (p s : string) : bool :=
  match p, s with
  | EmptyString, _ => true
  | String a p', String b s' => (if decide (a = b) then true else false) && startsWith p' s'
  | String _ _, EmptyString => false
  end.

(** [s.split(sep)] for a one-character separator: the pieces between the
    occurrences of [sep], in order; never empty. *)
Fixpoint split (sep : ascii) (s : string) : list string :=
  match s with
  | EmptyString => [EmptyString]
  | String c s' =>
      if decide (c = sep) then EmptyString :: split sep s'
      else match split sep s' with
           | [] => [String c EmptyString]
           | piece :: rest => String c piece :: rest
           end
  end.

(** *** Dates (ECMAScript time values, UTC) *)

Definition msPerDay : Z := 86400000.

Definition DaysInYear (y : Z) : Z :=
  if negb (y mod 4 =? 0) then 365
  else if negb (y mod 100 =? 0) then 366
  else if negb (y mod 400 =? 0) then 365
  else 366.

Definition DayFromYear (y : Z) : Z :=
  365 * (y - 1970) + (y - 1969) / 4 - (y - 1901) / 100 + (y - 1601) / 400.

(** Days before the first of month [m] (0-based) in a year. *)
Definition DayWithinYearOfMonth (leap : bool) (m : Z) : Z :=
  let l := if leap then 1 else 0 in
  match m with
  | 0 => 0
  | 1 => 31
  | 2 => 59 + l
  | 3 => 90 + l
  | 4 => 120 + l
  | 5 => 151 + l
  | 6 => 181 + l
  | 7 => 212 + l
  | 8 => 243 + l
  | 9 => 273 + l
  | 10 => 304 + l
  | _ => 334 + l
  end.

(** [MakeDay(year, month, date)], month 0-based, date 1-based. *)
Definition MakeDay (year month date : Z) : Z :=
  let ym := year + month / 12 in
  let mn := month mod 12 in
  DayFromYear ym + DayWithinYearOfMonth (DaysInYear ym =? 366) mn + date - 1.

(** [TimeClip]: time values beyond 8.64e15 ms are NaN ([None]). *)
Definition TimeClip (t : Z) : option Z :=
  if Z.abs t <=? 8640000000000000 then Some t else None.

(** A [Date] object: its time value, [None] for an invalid date (NaN). *)
Definition Date := option Z.

Definition two_digits (a b : ascii) : Z := 10 * digit_value a + digit_value b.

(** [new Date(date + 'T00:00:00.000Z')] for a [date] that matches
    [date_regex]: an ISO date-time at UTC midnight.  Node (V8) accepts a
    month 01..12 and a day 01..31 and lets [MakeDay] carry a day beyond the
    month's end into the next month; anything else is an invalid date. *)
Definition new_Date_utc_midnight (date : string) : Date :=
  match date with
  | String y1 (String y2 (String y3 (String y4 (String _
      (String m1 (String m2 (String _ (String d1 (String d2 EmptyString))))))))) =>
      let year := 100 * two_digits y1 y2 + two_digits y3 y4 in
      let month := two_digits m1 m2 in
      let day := two_digits d1 d2 in
      if (1 <=? month) && (month <=? 12) && (1 <=? day) && (day <=? 31)
      then TimeClip (MakeDay year (month - 1) day * msPerDay)
      else None
  | _ => None
  end.

(** [dateObj.getUTCDay()]: 0 is Sunday, 6 is Saturday; [None] is NaN. *)
Definition getUTCDay (d : Date) : option Z :=
  match d with
  | Some t => Some ((t / msPerDay + 4) mod 7)
  | None => None
  end.

(** [buf.toString('hex')] *)
Definition hex_digit (n : N) : ascii :=
  match n with
  | 0 => "0" | 1 => "1" | 2 => "2" | 3 => "3" | 4 => "4" | 5 => "5"
  | 6 => "6" | 7 => "7" | 8 => "8" | 9 => "9" | 10 => "a" | 11 => "b"
  | 12 => "c" | 13 => "d" | 14 => "e" | _ => "f"
  end%N%char.

Fixpoint toString_hex (buf : list Byte.byte) : string :=
  match buf with
  | [] => EmptyString
  | b :: buf' =>
      String (hex_digit (Byte.to_N b / 16))
        (String (hex_digit (Byte.to_N b mod 16)) (toString_hex buf'))
  end.

(** [x === n] for a number [x] that may be NaN ([None]). *)
Definition strict_eq_number (x : option Z) (n : Z) : bool :=
  match x with
  | Some v => v =? n
  | None => false
  end.

(** [arr.includes(x)] on an array of strings. *)
Definition includes (arr : list string) (x : string) : bool :=
  existsb (fun y => bool_decide (y = x)) arr.

(** [arr.some(p)] *)
Definition some {A} (p : A -> bool) (arr : list A) : bool := existsb p arr.

(** *** Plain objects *)

(** The string-keyed members of [Object.prototype] in Node: eleven functions
    and the accessor [__proto__].  Every plain object inherits them. *)
Definition Object_prototype_keys : list string :=
  ["constructor"; "__defineGetter__"; "__defineSetter__"; "hasOwnProperty";
   "__lookupGetter__"; "__lookupSetter__"; "isPrototypeOf"; "propertyIsEnumerable";
   "toString"; "valueOf"; "__proto__"; "toLocaleString"].

Definition inherited (k : string) : bool := bool_decide (k ∈ Object_prototype_keys).

(** What [obj[k]] reads on a plain object with the own properties [obj]: an
    own property, else the built-in object inherited under [k] (a function, or
    [Object.prototype] itself for [__proto__]), else [undefined]. *)
Inductive property (V : Type) : Type :=
| Own (v : V)
| Builtin
| Undefined.

Arguments Own {V} v.
Arguments Builtin {V}.
Arguments Undefined {V}.

Definition get {V} (obj : gmap string V) (k : string) : property V :=
  match obj !! k with
  | Some v => Own v
  | None => if inherited k then Builtin else Undefined
  end.

(** [Object.assign(target, source)] on a plain object [target] and a source
    with boolean values: every own property of [source] is written to
    [target] and the others are kept.  The write of a key [__proto__] that
    [target] does not own runs the inherited setter, which ignores a boolean
    and stores nothing. *)
Definition Object_assign {V} (target source : gmap string V) : gmap string V :=
  match target !! "__proto__" with
  | Some _ => source
  | None => delete "__proto__" source
  end ∪ target.

(** [Object.assign(builtin, source)] throws a TypeError when a key of
    [source] cannot be set on the built-in object inherited under [k]: on a
    function the own properties [length] and [name] are read-only and the
    accessors [caller] and [arguments] of [Function.prototype] throw; on
    [Object] (inherited under [constructor]) [prototype] is read-only as
    well.  On [Object.prototype] (inherited under [__proto__]) every key can
    be set. *)
Definition assign_to_builtin_throws {V} (k : string) (source : gmap string V) : bool :=
  if decide (k = "__proto__") then false
  else
    bool_decide (is_Some (source !! "length")) || bool_decide (is_Some (source !! "name"))
    || bool_decide (is_Some (source !! "caller"))
    || bool_decide (is_Some (source !! "arguments"))
    || (bool_decide (k = "constructor") && bool_decide (is_Some (source !! "prototype"))).

End Js.

(** ** Requests shared by the two servers *)

(** Body of [POST /api/book]: [{ date, time, name, email, address, notes }]. *)
Record book_body := BookBody {
  req_date : option string;
  req_time : option string;
  req_name : option string;
  req_email : option string;
  req_address : option string;
  req_notes : option string
}.

(** The validation both servers start [POST /api/book] with:
    [!date || !time || !name || !email || !address]. *)
Definition missing_required (req : book_body) : bool :=
  Js.falsy (req_date req) || Js.falsy (req_time req) || Js.falsy (req_name req)
  || Js.falsy (req_email req) || Js.falsy (req_address req).

(** ** The server with the admin surface *)

Module Booking.

(** A booking record, [{ time, name, email, address, notes }]. *)
Record booking := Booking {
  time : string;
  name : string;
  email : string;
  address : string;
  notes : option string
}.

(** The in-memory data store. *)
Record state := State {
  bookings : gmap string (list booking);
  availabilityOverrides : gmap string (gmap string bool);
  validTokens : gset string
}.

Definition init : state := State ∅ ∅ ∅.

(** JSON bodies of the responses. *)
Inductive body :=
| Message (message : string)
| AvailableTimes (date : string) (availableTimes : list string)
| Success (message : string)
| Token (token : string)
| AllBookings (b : gmap string (list booking))
| AllOverrides (o : gmap string (gmap string bool))
| InternalServerError.

Record response := Response { status : Z; json : body }.

(** Express's answer to a handler that throws. *)
Definition uncaught : response := Response 500 InternalServerError.

Definition getStandardAvailability (dateObj : Js.Date) : list string :=
  let dayOfWeek := Js.getUTCDay dateObj in
  if Js.strict_eq_number dayOfWeek 0 || Js.strict_eq_number dayOfWeek 6 then []
  else ["08:00 AM - 09:00 AM"; "09:00 AM - 10:00 AM"; "10:00 AM - 11:00 AM"].

(** [validTokens.has(token)], where [token] may be [undefined]. *)
Definition has (tokens : gset string) (token : option string) : bool :=
  match token with
  | Some t => bool_decide (t ∈ tokens)
  | None => false
  end.

(** [authMiddleware]: [None] stands for the call of [next()]. *)
Definition authMiddleware (st : state) (authorization : option string) : option response :=
  let authHeader := authorization in
  if Js.falsy authHeader || negb (Js.startsWith "Bearer " (default "" authHeader)) then
    Some (Response 401 (Message "Authorization token is required."))
  else
    let token := Js.split " " (default "" authHeader) !! 1%nat in
    if negb (has (validTokens st) token) then
      Some (Response 403 (Message "Invalid or expired token."))
    else None.

(** The [availableTimes] that [GET /api/availability] computes for a
    [date] that passed the validation.  No inherited member has the form of
    a date, so [bookings[date]] and [availabilityOverrides[date]] are own
    properties or [undefined]; a slot that [dayOverrides] does not own reads
    [undefined] or an inherited function, never [false]. *)
Definition availableTimes (st : state) (date : string) : list string :=
  let dateObj := Js.new_Date_utc_midnight date in
  let allTimes := getStandardAvailability dateObj in
  let bookedTimesForDate := map time (default [] (bookings st !! date)) in
  let dayOverrides := default ∅ (availabilityOverrides st !! date) in
  List.filter (fun time =>
    let isManuallyDisabled := bool_decide (dayOverrides !! time = Some false) in
    let isBooked := Js.includes bookedTimesForDate time in
    negb isManuallyDisabled && negb isBooked) allTimes.

(** [GET /api/availability] *)
Definition get_availability (st : state) (date : option string) : response * state :=
  if Js.falsy date || negb (Js.regex_test Js.date_regex (default "" date)) then
    (Response 400 (Message "A valid date in YYYY-MM-DD format is required."), st)
  else
    let date := default "" date in
    (Response 200 (AvailableTimes date (availableTimes st date)), st).

(** [POST /api/book] *)
Definition post_book (st : state) (req : book_body) : response * state :=
  if missing_required req then
    (Response 400 (Message "Missing required booking information."), st)
  else
    let date := default "" (req_date req) in
    let time' := default "" (req_time req) in
    match Js.get (bookings st) date with
    | Js.Builtin =>
        (* [bookings[date]] is an inherited built-in: it is truthy and has
           no [some], so the call throws *)
        (uncaught, st)
    | _ =>
        if match bookings st !! date with
           | Some l => Js.some (fun b => bool_decide (time b = time')) l
           | None => false
           end
           || match availabilityOverrides st !! date with
              | Some o => bool_decide (o !! time' = Some false)
              | None => false
              end
        then (Response 409 (Message "This time slot is no longer available."), st)
        else
          let newBooking :=
            Booking time' (default "" (req_name req)) (default "" (req_email req))
                    (default "" (req_address req)) (req_notes req) in
          (Response 201 (Success "Booking confirmed!"),
           State (<[date := (default [] (bookings st !! date) ++ [newBooking])%list]>
                    (bookings st))
                 (availabilityOverrides st) (validTokens st))
    end.

Section Admin.

(** [process.env.ADMIN_PASSCODE] *)
Variable env_ADMIN_PASSCODE : option string.

Definition ADMIN_PASSCODE : string :=
  if Js.falsy env_ADMIN_PASSCODE then "secret123" else default "" env_ADMIN_PASSCODE.

(** [POST /api/admin/login]; [randomBytes] is the buffer that
    [crypto.randomBytes(16)] delivers. *)
Definition post_login (st : state) (passcode : option string)
    (randomBytes : list Byte.byte) : response * state :=
  if bool_decide (passcode = Some ADMIN_PASSCODE) then
    let token := Js.toString_hex randomBytes in
    (Response 200 (Token token),
     State (bookings st) (availabilityOverrides st) ({[token]} ∪ validTokens st))
  else (Response 401 (Message "Invalid passcode."), st).

(** [GET /api/admin/bookings], behind [authMiddleware]. *)
Definition get_admin_bookings (st : state) : response * state :=
  (Response 200 (AllBookings (bookings st)), st).

(** [GET /api/admin/availability], behind [authMiddleware]. *)
Definition get_admin_availability (st : state) : response * state :=
  (Response 200 (AllOverrides (availabilityOverrides st)), st).

(** [POST /api/admin/availability], behind [authMiddleware]. *)
Definition post_admin_availability (st : state) (date : option string)
    (slots : option (gmap string bool)) : response * state :=
  if Js.falsy date || bool_decide (slots = None) then
    (Response 400 (Message "Date and slots object are required."), st)
  else
    let date := default "" date in
    match Js.get (availabilityOverrides st) date with
    | Js.Builtin =>
        (* [availabilityOverrides[date]] is an inherited built-in: no entry
           is created and [Object.assign] writes onto the built-in itself *)
        if Js.assign_to_builtin_throws date (default ∅ slots) then (uncaught, st)
        else (Response 200 (Success ("Availability for " ++ date ++ " updated.")), st)
    | _ =>
        let target := default ∅ (availabilityOverrides st !! date) in
        (Response 200 (Success ("Availability for " ++ date ++ " updated.")),
         State (bookings st)
               (<[date := Js.Object_assign target (default ∅ slots)]>
                  (availabilityOverrides st))
               (validTokens st))
    end.

(** The routes registered on [adminRouter] after
    [adminRouter.use(authMiddleware)]. *)
Inductive admin_route :=
| GetBookings
| GetAvailabilityOverrides
| PostAvailability (date : option string) (slots : option (gmap string bool)).

Definition admin_route_handler (route : admin_route) (st : state) : response * state :=
  match route with
  | GetBookings => get_admin_bookings st
  | GetAvailabilityOverrides => get_admin_availability st
  | PostAvailability date slots => post_admin_availability st date slots
  end.

(** [adminRouter.use(authMiddleware)]: the routes registered after it run
    only when the middleware calls [next()]. *)
Definition protected (st : state) (authorization : option string)
    (route : admin_route) : response * state :=
  match authMiddleware st authorization with
  | Some denied => (denied, st)
  | None => admin_route_handler route st
  end.

(** The requests the server answers; [authorization] is the value of the
    request's Authorization header. *)
Inductive request :=
| GetAvailability (date : option string)
| PostBook (req : book_body)
| PostLogin (passcode : option string) (randomBytes : list Byte.byte)
| Admin (authorization : option string) (route : admin_route).

Definition handle (st : state) (r : request) : response * state :=
  match r with
  | GetAvailability date => get_availability st date
  | PostBook req => post_book st req
  | PostLogin passcode randomBytes => post_login st passcode randomBytes
  | Admin authorization route => protected st authorization route
  end.

(** The states the server passes through from [st]. *)
Inductive steps (st : state) : state -> Prop :=
| steps_refl : steps st st
| steps_step st' r : steps st st' -> steps st (handle st' r).2.

Definition reachable : state -> Prop := steps init.

(** The state after a sequence of requests, handled in order. *)
Definition run (st : state) (rs : list request) : state :=
  fold_left (fun st r => (handle st r).2) rs st.

End Admin.

(** The notions the specification speaks of. *)

(** The override entry for (date, slot). *)
Definition override (st : state) (date slot : string) : option bool :=
  availabilityOverrides st !! date ≫= (.!! slot).

(** The booking records of a date. *)
Definition bookings_of (st : state) (date : string) : list booking :=
  default [] (bookings st !! date).

(** A booking record for (date, slot) exists. *)
Definition booked (st : state) (date slot : string) : Prop :=
  ∃ b, In b (bookings_of st date) ∧ time b = slot.

(** The booking records for (date, slot). *)
Definition records_for (st : state) (date slot : string) : list booking :=
  List.filter (fun b => bool_decide (time b = slot)) (bookings_of st date).

(** At most one booking record per (date, slot). *)
Definition at_most_one_booking (st : state) : Prop :=
  ∀ date slot, (length (records_for st date slot) <= 1)%nat.

End Booking.

(** ** The stand-alone server.js *)

Module ServerJs.

(** The in-memory data store: the booked time labels of each date. *)
Record state := State {
  bookings : gmap string (list string)
}.

Definition init : state := State ∅.

Inductive body :=
| Message (message : string)
| AvailableTimes (date : string) (availableTimes : list string)
| Confirmed (message : string) (booking : book_body)
| InternalServerError.

Record response := Response { status : Z; json : body }.

(** Express's answer to a handler that throws. *)
Definition uncaught : response := Response 500 InternalServerError.

Definition getStandardAvailability : list string :=
  ["09:00 AM - 11:00 AM"; "11:00 AM - 01:00 PM";
   "01:00 PM - 03:00 PM"; "03:00 PM - 05:00 PM"].

(** [GET /api/availability] *)
Definition get_availability (st : state) (date : option string) : response * state :=
  if Js.falsy date then
    (Response 400 (Message "Date query parameter is required."), st)
  else
    let date := default "" date in
    let allTimes := getStandardAvailability in
    match Js.get (bookings st) date with
    | Js.Builtin =>
        (* [bookings[date] || []] is an inherited built-in, which has no
           [includes]: the filter's first call throws *)
        (uncaught, st)
    | _ =>
        let bookedTimesForDate := default [] (bookings st !! date) in
        let availableTimes :=
          List.filter (fun time => negb (Js.includes bookedTimesForDate time)) allTimes in
        (Response 200 (AvailableTimes date availableTimes), st)
    end.

(** [POST /api/book] *)
Definition post_book (st : state) (req : book_body) : response * state :=
  if missing_required req then
    (Response 400 (Message "Missing required booking information."), st)
  else
    let date := default "" (req_date req) in
    let time := default "" (req_time req) in
    match Js.get (bookings st) date with
    | Js.Builtin =>
        (* [bookings[date]] is an inherited built-in: it is truthy, so no
           array is stored, and it has no [includes], so the call throws *)
        (uncaught, st)
    | _ =>
        let initialised :=
          match bookings st !! date with
          | Some _ => bookings st
          | None => <[date := []]> (bookings st)
          end in
        let forDate := default [] (initialised !! date) in
        if Js.includes forDate time then
          (Response 409 (Message "This time slot is no longer available."), State initialised)
        else
          (Response 201 (Confirmed "Booking confirmed!" req),
           State (<[date := (forDate ++ [time])%list]> initialised))
    end.

Inductive request :=
| GetAvailability (date : option string)
| PostBook (req : book_body).

Definition handle (st : state) (r : request) : response * state :=
  match r with
  | GetAvailability date => get_availability st date
  | PostBook req => post_book st req
  end.

Inductive steps (st : state) : state -> Prop :=
| steps_refl : steps st st
| steps_step st' r : steps st st' -> steps st (handle st' r).2.

Definition reachable : state -> Prop := steps init.

Definition bookings_of (st : state) (date : string) : list string :=
  default [] (bookings st !! date).

(** A booking for (date, slot) exists. *)
Definition booked (st : state) (date slot : string) : Prop :=
  In slot (bookings_of st date).

(** The booking records for (date, slot). *)
Definition records_for (st : state) (date slot : string) : list string :=
  List.filter (fun t => bool_decide (t = slot)) (bookings_of st date).

(** At most one booking record per (date, slot). *)
Definition at_most_one_booking (st : state) : Prop :=
  ∀ date slot, (length (records_for st date slot) <= 1)%nat.

End ServerJs.

(** ** Vocabulary of the specification and sample states *)

(** A field is missing or empty. *)
Definition absent_or_empty (v : option string) : Prop := v = None ∨ v = Some "".

(** A state with one booking and one disabled slot on Tuesday 2025-10-28. *)
Definition tuesday_state : Booking.state :=
  Booking.State
    {[ "2025-10-28" :=
         [Booking.Booking "09:00 AM - 10:00 AM" "A" "a@x.com" "1 Main St" None] ]}
    {[ "2025-10-28" := {[ "08:00 AM - 09:00 AM" := false ]} ]}
    ∅.

(** The booking of the specification's example. *)
Definition example_booking : book_body :=
  BookBody (Some "2025-10-28") (Some "09:00 AM - 10:00 AM") (Some "A") (Some "a@x.com")
    (Some "1 Main St") None.

(** The state after a login with the default passcode on [tuesday_state]. *)
Definition logged_in_state : Booking.state :=
  (Booking.handle None tuesday_state
     (Booking.PostLogin (Some "secret123") (repeat Byte.x2a 16))).2.

Definition admin_header : string := "Bearer 2a2a2a2a2a2a2a2a2a2a2a2a2a2a2a2a".

Definition patch_request : Booking.request :=
  Booking.Admin (Some admin_header)
    (Booking.PostAvailability (Some "2025-10-28")
       (Some {[ "08:00 AM - 09:00 AM" := true; "10:00 AM - 11:00 AM" := false ]})).

(** * Properties *)

Example date_regex_ok : Js.regex_test Js.date_regex "2025-10-28" = true.
Proof. reflexivity. Qed.

Example date_regex_long : Js.regex_test Js.date_regex "2025-10-280" = false.
Proof. reflexivity. Qed.

Example tuesday : Js.getUTCDay (Js.new_Date_utc_midnight "2025-10-28") = Some 2.
Proof. reflexivity. Qed.

Example saturday : Js.getUTCDay (Js.new_Date_utc_midnight "2025-11-01") = Some 6.
Proof. reflexivity. Qed.

Example epoch_thursday : Js.getUTCDay (Js.new_Date_utc_midnight "1970-01-01") = Some 4.
Proof. reflexivity. Qed.

Example leap_day : Js.getUTCDay (Js.new_Date_utc_midnight "2024-02-29") = Some 4.
Proof. reflexivity. Qed.

Example century_not_leap : Js.getUTCDay (Js.new_Date_utc_midnight "1900-03-01") = Some 4.
Proof. reflexivity. Qed.

Example day_carried_over :
  Js.new_Date_utc_midnight "2025-02-30" = Js.new_Date_utc_midnight "2025-03-02".
Proof. reflexivity. Qed.

Example invalid_month : Js.getUTCDay (Js.new_Date_utc_midnight "2025-13-01") = None.
Proof. reflexivity. Qed.

Example split_bearer : Js.split " " "Bearer abc def" = ["Bearer"; "abc"; "def"].
Proof. reflexivity. Qed.

(** Case analysis on the tests and store reads of a handler. *)
Ltac handler_cases :=
  repeat match goal with
         | |- context [match Js.get ?obj ?k with _ => _ end] => destruct (Js.get obj k)
         | |- context [if ?c then _ else _] => destruct c
         end.

(** ** Facts about the JavaScript primitives *)

Lemma falsy_false (v : option string) :
  Js.falsy v = false ↔ ∃ s, v = Some s ∧ s ≠ "".
Proof.
  unfold Js.falsy. destruct v as [s|].
  - destruct (decide (s = "")) as [->|Hne]; split.
    + discriminate.
    + intros (s' & [= <-] & Hs'). congruence.
    + eauto.
    + reflexivity.
  - split; [discriminate | intros (s & Hs & _); discriminate].
Qed.

Lemma falsy_true (v : option string) :
  Js.falsy v = true ↔ v = None ∨ v = Some "".
Proof.
  unfold Js.falsy. destruct v as [s|].
  - destruct (decide (s = "")) as [->|Hne]; split; auto.
    + discriminate.
    + intros [?|[= ->]]; congruence.
  - split; auto.
Qed.

Lemma includes_In (arr : list string) (x : string) :
  Js.includes arr x = true ↔ In x arr.
Proof.
  unfold Js.includes. rewrite existsb_exists. split.
  - intros (y & Hy & Heq). apply bool_decide_eq_true in Heq. by subst.
  - intros Hx. exists x. split; [done | by apply bool_decide_eq_true].
Qed.

Lemma includes_not_In (arr : list string) (x : string) :
  Js.includes arr x = false ↔ ¬ In x arr.
Proof.
  rewrite <- includes_In. destruct (Js.includes arr x); split; congruence.
Qed.


(** Reading a store under a key. *)
Lemma get_Builtin {V} (obj : gmap string V) (k : string) :
  Js.get obj k = Js.Builtin ↔ obj !! k = None ∧ Js.inherited k = true.
Proof.
  unfold Js.get. destruct (obj !! k); [split; [discriminate | by intros [? _]]|].
  destruct (Js.inherited k); split; try done; by intros [_ ?].
Qed.

Lemma get_not_inherited {V} (obj : gmap string V) (k : string) :
  Js.inherited k = false →
  Js.get obj k = match obj !! k with Some v => Js.Own v | None => Js.Undefined end.
Proof. intros Hk. unfold Js.get. by rewrite Hk. Qed.

Lemma inherited_true (k : string) :
  Js.inherited k = true ↔ In k Js.Object_prototype_keys.
Proof. unfold Js.inherited. rewrite bool_decide_eq_true. apply list_elem_of_In. Qed.

Lemma get_not_Builtin {V} (obj : gmap string V) (k : string) :
  Js.inherited k = false → Js.get obj k ≠ Js.Builtin.
Proof. intros Hk [_ Hk']%get_Builtin. congruence. Qed.

Lemma get_Builtin_dec {V} (obj : gmap string V) (k : string) :
  Js.get obj k = Js.Builtin ∨ Js.get obj k ≠ Js.Builtin.
Proof. destruct (Js.get obj k); auto. Qed.

(** A read that does not find a built-in goes on with the store. *)
Lemma get_match {V A} (obj : gmap string V) (k : string) (a b : A) :
  Js.get obj k ≠ Js.Builtin →
  match Js.get obj k with Js.Builtin => a | _ => b end = b.
Proof. by destruct (Js.get obj k). Qed.

Lemma get_match_Builtin {V A} (obj : gmap string V) (k : string) (a b : A) :
  Js.get obj k = Js.Builtin →
  match Js.get obj k with Js.Builtin => a | _ => b end = a.
Proof. by intros ->. Qed.

(** No member of [Object.prototype] has the form of a date. *)
Lemma date_regex_not_inherited (d : string) :
  Js.regex_test Js.date_regex d = true → Js.inherited d = false.
Proof.
  intros Hd. apply not_true_is_false. rewrite inherited_true. cbn.
  intros Hin. repeat destruct Hin as [<- | Hin]; try discriminate Hd. done.
Qed.

(** ** The availability query *)

(** What the query of the admin server answers, by cases on its validation. *)
Lemma get_availability_rejects st (date : option string) :
  Js.falsy date || negb (Js.regex_test Js.date_regex (default "" date)) = true →
  Booking.get_availability st date =
    (Booking.Response 400
       (Booking.Message "A valid date in YYYY-MM-DD format is required."), st).
Proof. unfold Booking.get_availability. by intros ->. Qed.


Lemma serverjs_get_availability_accepts st (d : string) :
  d ≠ "" → Js.get (ServerJs.bookings st) d ≠ Js.Builtin →
  ServerJs.get_availability st (Some d) =
    (ServerJs.Response 200
       (ServerJs.AvailableTimes d
          (List.filter (fun t => negb (Js.includes (ServerJs.bookings_of st d) t))
             ServerJs.getStandardAvailability)), st).
Proof.
  intros Hd Hget. unfold ServerJs.get_availability.
  assert (Js.falsy (Some d) = false) as -> by (apply falsy_false; eauto).
  cbn [from_option id]. by rewrite get_match.
Qed.


(** Membership in [availableTimes], in the words of the specification. *)
Lemma availableTimes_spec st (D T : string) :
  In T (Booking.availableTimes st D) ↔
    In T (Booking.getStandardAvailability (Js.new_Date_utc_midnight D))
    ∧ Booking.override st D T ≠ Some false
    ∧ ¬ Booking.booked st D T.
Proof.
  unfold Booking.availableTimes, Booking.override, Booking.booked, Booking.bookings_of.
  rewrite filter_In, andb_true_iff, !negb_true_iff, bool_decide_eq_false, includes_not_In.
  rewrite in_map_iff.
  assert (default ∅ (Booking.availabilityOverrides st !! D) !! T
          = Booking.availabilityOverrides st !! D ≫= (.!! T)) as ->.
  { destruct (Booking.availabilityOverrides st !! D); simpl; [done | apply lookup_empty]. }
  split.
  - intros (Hstd & Hov & Hbk). repeat split; [done .. |].
    intros (b & Hb & Ht). apply Hbk. eauto.
  - intros (Hstd & Hov & Hbk). repeat split; [done .. |].
    intros (b & Ht & Hb). apply Hbk. eauto.
Qed.







Example tuesday_state_available :
  Booking.handle None tuesday_state (Booking.GetAvailability (Some "2025-10-28"))
  = (Booking.Response 200 (Booking.AvailableTimes "2025-10-28" ["10:00 AM - 11:00 AM"]),
     tuesday_state).
Proof. vm_compute. reflexivity. Qed.




(** ** Creating bookings *)

Lemma missing_required_true (req : book_body) :
  missing_required req = true ↔
    absent_or_empty (req_date req) ∨ absent_or_empty (req_time req)
    ∨ absent_or_empty (req_name req) ∨ absent_or_empty (req_email req)
    ∨ absent_or_empty (req_address req).
Proof.
  unfold missing_required, absent_or_empty.
  rewrite !orb_true_iff, !falsy_true. tauto.
Qed.

Lemma missing_required_present (D T n e a : string) notes :
  D ≠ "" → T ≠ "" → n ≠ "" → e ≠ "" → a ≠ "" →
  missing_required (BookBody (Some D) (Some T) (Some n) (Some e) (Some a) notes) = false.
Proof.
  intros. apply not_true_is_false. rewrite missing_required_true.
  unfold absent_or_empty. simpl. intros H'.
  repeat destruct H' as [H'|H']; try discriminate; congruence.
Qed.

(** A request that passes the validation carries five non-empty strings. *)
Lemma missing_required_false (req : book_body) :
  missing_required req = false →
  ∃ (D T n e a : string),
    req = BookBody (Some D) (Some T) (Some n) (Some e) (Some a) (req_notes req)
    ∧ D ≠ "" ∧ T ≠ "" ∧ n ≠ "" ∧ e ≠ "" ∧ a ≠ "".
Proof.
  unfold missing_required. rewrite !orb_false_iff.
  intros ((((HD & HT) & Hn) & He) & Ha).
  destruct req as [d t n e a notes];
    cbn [req_date req_time req_name req_email req_address req_notes] in *.
  apply falsy_false in HD as (D & -> & HD). apply falsy_false in HT as (T & -> & HT).
  apply falsy_false in Hn as (n' & -> & Hn). apply falsy_false in He as (e' & -> & He).
  apply falsy_false in Ha as (a' & -> & Ha).
  by exists D, T, n', e', a'.
Qed.

(** The two tests of the conflict check, in the words of the specification. *)
Lemma already_booked_test st (D T : string) :
  match Booking.bookings st !! D with
  | Some l => Js.some (fun b => bool_decide (Booking.time b = T)) l
  | None => false
  end = true ↔ Booking.booked st D T.
Proof.
  unfold Booking.booked, Booking.bookings_of, Js.some.
  destruct (Booking.bookings st !! D) as [l|]; simpl.
  - rewrite existsb_exists. split.
    + intros (b & Hb & Ht). apply bool_decide_eq_true in Ht. eauto.
    + intros (b & Hb & Ht). exists b. split; [done | by apply bool_decide_eq_true].
  - split; [discriminate | by intros (b & [] & _)].
Qed.

Lemma disabled_test st (D T : string) :
  match Booking.availabilityOverrides st !! D with
  | Some o => bool_decide (o !! T = Some false)
  | None => false
  end = true ↔ Booking.override st D T = Some false.
Proof.
  unfold Booking.override.
  destruct (Booking.availabilityOverrides st !! D) as [o|]; simpl.
  - apply bool_decide_eq_true.
  - split; discriminate.
Qed.

Lemma post_book_invalid st (req : book_body) :
  missing_required req = true →
  Booking.post_book st req =
    (Booking.Response 400 (Booking.Message "Missing required booking information."), st).
Proof. unfold Booking.post_book. by intros ->. Qed.

(** A date with booking records is an own key of the store. *)
Lemma booked_get st (D T : string) :
  Booking.booked st D T → Js.get (Booking.bookings st) D ≠ Js.Builtin.
Proof.
  intros (b & Hb & _) [Hnone _]%get_Builtin.
  unfold Booking.bookings_of in Hb. by rewrite Hnone in Hb.
Qed.

(** A booking request whose date is an inherited member and no own key of
    the store makes the handler throw. *)
Lemma post_book_throws st (D T n e a : string) notes :
  D ≠ "" → T ≠ "" → n ≠ "" → e ≠ "" → a ≠ "" →
  Js.get (Booking.bookings st) D = Js.Builtin →
  Booking.post_book st (BookBody (Some D) (Some T) (Some n) (Some e) (Some a) notes) =
    (Booking.uncaught, st).
Proof.
  intros HD HT Hn He Ha Hget. unfold Booking.post_book.
  rewrite missing_required_present by done. cbn [req_date req_time from_option id].
  by rewrite Hget.
Qed.

Lemma post_book_conflict st (D T n e a : string) notes :
  D ≠ "" → T ≠ "" → n ≠ "" → e ≠ "" → a ≠ "" →
  Js.get (Booking.bookings st) D ≠ Js.Builtin →
  Booking.booked st D T ∨ Booking.override st D T = Some false →
  Booking.post_book st (BookBody (Some D) (Some T) (Some n) (Some e) (Some a) notes) =
    (Booking.Response 409 (Booking.Message "This time slot is no longer available."), st).
Proof.
  intros HD HT Hn He Ha Hget Hc. unfold Booking.post_book.
  rewrite missing_required_present by done. cbn [req_date req_time from_option id].
  rewrite get_match by done.
  rewrite <- already_booked_test, <- disabled_test, <- orb_true_iff in Hc.
  by rewrite Hc.
Qed.

Lemma post_book_success st (D T n e a : string) notes :
  D ≠ "" → T ≠ "" → n ≠ "" → e ≠ "" → a ≠ "" →
  Js.get (Booking.bookings st) D ≠ Js.Builtin →
  ¬ Booking.booked st D T → Booking.override st D T ≠ Some false →
  Booking.post_book st (BookBody (Some D) (Some T) (Some n) (Some e) (Some a) notes) =
    (Booking.Response 201 (Booking.Success "Booking confirmed!"),
     Booking.State
       (<[D := (Booking.bookings_of st D ++ [Booking.Booking T n e a notes])%list]>
          (Booking.bookings st))
       (Booking.availabilityOverrides st) (Booking.validTokens st)).
Proof.
  intros HD HT Hn He Ha Hget Hb Ho. unfold Booking.post_book.
  rewrite missing_required_present by done.
  cbn [req_date req_time req_name req_email req_address req_notes from_option id].
  rewrite get_match by done.
  rewrite <- already_booked_test in Hb. rewrite <- disabled_test in Ho.
  apply not_true_is_false in Hb, Ho. by rewrite Hb, Ho.
Qed.

Lemma serverjs_post_book_invalid st (req : book_body) :
  missing_required req = true →
  ServerJs.post_book st req =
    (ServerJs.Response 400 (ServerJs.Message "Missing required booking information."), st).
Proof. unfold ServerJs.post_book. by intros ->. Qed.

Lemma serverjs_booked_get st (D T : string) :
  ServerJs.booked st D T → Js.get (ServerJs.bookings st) D ≠ Js.Builtin.
Proof.
  intros Hb [Hnone _]%get_Builtin.
  unfold ServerJs.booked, ServerJs.bookings_of in Hb. by rewrite Hnone in Hb.
Qed.

Lemma serverjs_post_book_throws st (D T n e a : string) notes :
  D ≠ "" → T ≠ "" → n ≠ "" → e ≠ "" → a ≠ "" →
  Js.get (ServerJs.bookings st) D = Js.Builtin →
  ServerJs.post_book st (BookBody (Some D) (Some T) (Some n) (Some e) (Some a) notes) =
    (ServerJs.uncaught, st).
Proof.
  intros HD HT Hn He Ha Hget. unfold ServerJs.post_book.
  rewrite missing_required_present by done. cbn [req_date req_time from_option id].
  by rewrite Hget.
Qed.

Lemma serverjs_post_book_conflict st (D T n e a : string) notes :
  D ≠ "" → T ≠ "" → n ≠ "" → e ≠ "" → a ≠ "" →
  ServerJs.booked st D T →
  ServerJs.post_book st (BookBody (Some D) (Some T) (Some n) (Some e) (Some a) notes) =
    (ServerJs.Response 409 (ServerJs.Message "This time slot is no longer available."), st).
Proof.
  intros HD HT Hn He Ha Hb. unfold ServerJs.post_book.
  rewrite missing_required_present by done. cbn [req_date req_time from_option id].
  rewrite get_match by (by apply (serverjs_booked_get st D T)).
  unfold ServerJs.booked, ServerJs.bookings_of in Hb.
  destruct st as [b]; cbn [ServerJs.bookings] in *.
  destruct (b !! D) as [l|] eqn:Hl; [|done].
  rewrite Hl. cbn [from_option id] in *.
  apply includes_In in Hb. by rewrite Hb.
Qed.

Lemma serverjs_post_book_success st (D T n e a : string) notes :
  D ≠ "" → T ≠ "" → n ≠ "" → e ≠ "" → a ≠ "" →
  Js.get (ServerJs.bookings st) D ≠ Js.Builtin →
  ¬ ServerJs.booked st D T →
  ServerJs.post_book st (BookBody (Some D) (Some T) (Some n) (Some e) (Some a) notes) =
    (ServerJs.Response 201
       (ServerJs.Confirmed "Booking confirmed!"
          (BookBody (Some D) (Some T) (Some n) (Some e) (Some a) notes)),
     ServerJs.State (<[D := (ServerJs.bookings_of st D ++ [T])%list]> (ServerJs.bookings st))).
Proof.
  intros HD HT Hn He Ha Hget Hb. unfold ServerJs.post_book.
  rewrite missing_required_present by done. cbn [req_date req_time from_option id].
  rewrite get_match by done.
  unfold ServerJs.booked, ServerJs.bookings_of in *.
  destruct (ServerJs.bookings st !! D) as [l|] eqn:Hl.
  - rewrite Hl. cbn [from_option id] in *.
    apply includes_not_In in Hb. by rewrite Hb.
  - rewrite lookup_insert_eq. cbn [from_option id Js.includes existsb].
    by rewrite insert_insert_eq.
Qed.



(** C8. For every booking request in which any of date, time, name, email or
    address is missing or empty, the booking handler of either server answers
    400 whatever the state (so before any conflict check), and leaves the
    stores unchanged. *)
Theorem C8_missing_field env st st' (req : book_body) :
  absent_or_empty (req_date req) ∨ absent_or_empty (req_time req)
  ∨ absent_or_empty (req_name req) ∨ absent_or_empty (req_email req)
  ∨ absent_or_empty (req_address req) →
  Booking.handle env st (Booking.PostBook req)
    = (Booking.Response 400 (Booking.Message "Missing required booking information."), st)
  ∧ ServerJs.handle st' (ServerJs.PostBook req)
    = (ServerJs.Response 400 (ServerJs.Message "Missing required booking information."), st').
Proof.
  intros Hm%missing_required_true. split.
  - by apply post_book_invalid.
  - by apply serverjs_post_book_invalid.
Qed.

(** C2, at its failing input.  A booking request with all required fields
    whose date is "constructor", for a slot that is neither booked nor
    disabled, is answered neither 409 nor 201: [bookings["constructor"]] is
    the inherited built-in, the conflict check throws, and both servers
    answer 500 and store nothing. *)
Theorem C2_constructor_date_uncaught :
  ¬ Booking.booked Booking.init "constructor" "09:00 AM - 10:00 AM"
  ∧ Booking.override Booking.init "constructor" "09:00 AM - 10:00 AM" ≠ Some false
  ∧ Booking.handle None Booking.init
      (Booking.PostBook
         (BookBody (Some "constructor") (Some "09:00 AM - 10:00 AM") (Some "A")
            (Some "a@x.com") (Some "1 Main St") None))
    = (Booking.Response 500 Booking.InternalServerError, Booking.init)
  ∧ ServerJs.handle ServerJs.init
      (ServerJs.PostBook
         (BookBody (Some "constructor") (Some "09:00 AM - 10:00 AM") (Some "A")
            (Some "a@x.com") (Some "1 Main St") None))
    = (ServerJs.Response 500 ServerJs.InternalServerError, ServerJs.init).
Proof.
  split; [by intros (b & [] & _)|]. split; [discriminate|].
  split; reflexivity.
Qed.


(** The example of the specification, run on both servers: the booking
    succeeds once, its repetition is answered 409, and the listing of the date
    then omits the slot. *)
Example booking_example :
  let first := Booking.handle None Booking.init (Booking.PostBook example_booking) in
  let second := Booking.handle None first.2 (Booking.PostBook example_booking) in
  let listing := Booking.handle None second.2 (Booking.GetAvailability (Some "2025-10-28")) in
  Booking.status first.1 = 201
  ∧ Booking.status second.1 = 409
  ∧ listing.1 = Booking.Response 200
      (Booking.AvailableTimes "2025-10-28" ["08:00 AM - 09:00 AM"; "10:00 AM - 11:00 AM"]).
Proof. vm_compute. repeat split. Qed.

Example serverjs_booking_example :
  let req := BookBody (Some "2025-10-28") (Some "09:00 AM - 11:00 AM") (Some "A")
               (Some "a@x.com") (Some "1 Main St") None in
  let first := ServerJs.handle ServerJs.init (ServerJs.PostBook req) in
  let second := ServerJs.handle first.2 (ServerJs.PostBook req) in
  let listing := ServerJs.handle second.2 (ServerJs.GetAvailability (Some "2025-10-28")) in
  ServerJs.status first.1 = 201
  ∧ ServerJs.status second.1 = 409
  ∧ listing.1 = ServerJs.Response 200
      (ServerJs.AvailableTimes "2025-10-28"
         ["11:00 AM - 01:00 PM"; "01:00 PM - 03:00 PM"; "03:00 PM - 05:00 PM"]).
Proof. vm_compute. repeat split. Qed.

Lemma C8_witness :
  Booking.handle None tuesday_state
    (Booking.PostBook
       (BookBody (Some "2025-10-28") (Some "09:00 AM - 10:00 AM") (Some "") (Some "b@x.com")
          (Some "2 Main St") None))
  = (Booking.Response 400 (Booking.Message "Missing required booking information."),
     tuesday_state).
Proof.
  apply (C8_missing_field None tuesday_state ServerJs.init
           (BookBody (Some "2025-10-28") (Some "09:00 AM - 10:00 AM") (Some "")
              (Some "b@x.com") (Some "2 Main St") None)).
  right. right. left. right. reflexivity.
Defined.


(** ** At most one booking per (date, slot) *)

Lemma filter_nil_length {A} (p : A → bool) (l : list A) :
  length (List.filter p l) = 0%nat ↔ ∀ x, In x l → p x = false.
Proof.
  induction l as [|a l IH]; simpl.
  - split; [by intros _ x [] | done].
  - destruct (p a) eqn:Ha; simpl.
    + split; [discriminate|]. intros H. specialize (H a (or_introl eq_refl)). congruence.
    + rewrite IH. split.
      * intros H x [<-|Hx]; auto.
      * intros H x Hx. apply H. by right.
Qed.

(** No repeated key in a list, counted key by key. *)
Lemma NoDup_map_count {A} (f : A → string) (l : list A) :
  NoDup (map f l) ↔
  ∀ x, (length (List.filter (fun b => bool_decide (f b = x)) l) <= 1)%nat.
Proof.
  induction l as [|a l IH]; simpl.
  - split; [intros _ x; simpl; lia | intros _; apply NoDup_nil_2].
  - rewrite NoDup_cons, IH, list_elem_of_In, in_map_iff. split.
    + intros [Hfresh Hl] x. destruct (bool_decide (f a = x)) eqn:Hx; [|apply Hl].
      apply bool_decide_eq_true in Hx. simpl.
      assert (length (List.filter (fun b => bool_decide (f b = x)) l) = 0%nat) as ->; [|lia].
      apply filter_nil_length. intros b Hb. apply bool_decide_eq_false.
      intros Hfb. apply Hfresh. exists b. split; [congruence | done].
    + intros Hcount. split.
      * intros (b & Hfb & Hb). specialize (Hcount (f a)).
        rewrite bool_decide_true in Hcount by done. simpl in Hcount.
        assert (length (List.filter (fun b => bool_decide (f b = f a)) l) = 0%nat) as H0 by lia.
        rewrite filter_nil_length in H0. specialize (H0 b Hb).
        by apply bool_decide_eq_false in H0.
      * intros x. specialize (Hcount x).
        destruct (bool_decide (f a = x)); simpl in Hcount; lia.
Qed.

Lemma at_most_one_NoDup st :
  Booking.at_most_one_booking st ↔
  ∀ date, NoDup (map Booking.time (Booking.bookings_of st date)).
Proof.
  unfold Booking.at_most_one_booking, Booking.records_for. split.
  - intros H date. apply NoDup_map_count. intros x. apply H.
  - intros H date slot. revert slot. apply NoDup_map_count, H.
Qed.

Lemma serverjs_at_most_one_NoDup st :
  ServerJs.at_most_one_booking st ↔ ∀ date, NoDup (ServerJs.bookings_of st date).
Proof.
  unfold ServerJs.at_most_one_booking, ServerJs.records_for. split.
  - intros H date. rewrite <- (map_id (ServerJs.bookings_of st date)).
    apply NoDup_map_count. intros x. apply H.
  - intros H date slot. revert slot. apply (NoDup_map_count (fun t => t)).
    rewrite map_id. apply H.
Qed.

(** Every request leaves the booking store as it is or appends one record
    for a (date, slot) that had none. *)
Lemma post_book_bookings st (req : book_body) :
  Booking.bookings (Booking.post_book st req).2 = Booking.bookings st
  ∨ ∃ (D T n e a : string) notes,
      ¬ Booking.booked st D T
      ∧ Booking.bookings (Booking.post_book st req).2
        = <[D := (Booking.bookings_of st D ++ [Booking.Booking T n e a notes])%list]>
            (Booking.bookings st).
Proof.
  destruct (missing_required req) eqn:Hm.
  { left. by rewrite post_book_invalid. }
  apply missing_required_false in Hm as (D & T & n' & e' & a' & -> & HD & HT & Hn & He & Ha).
  cbn [req_notes]. set (notes := req_notes _). clearbody notes.
  destruct (get_Builtin_dec (Booking.bookings st) D) as [Hget|Hget].
  { left. by rewrite post_book_throws. }
  destruct (match Booking.bookings st !! D with
            | Some l => Js.some (fun b => bool_decide (Booking.time b = T)) l
            | None => false
            end) eqn:Hb.
  { left. rewrite post_book_conflict; auto. left. by apply already_booked_test. }
  assert (¬ Booking.booked st D T) as Hnb.
  { rewrite <- already_booked_test. by rewrite Hb. }
  destruct (match Booking.availabilityOverrides st !! D with
            | Some o => bool_decide (o !! T = Some false)
            | None => false
            end) eqn:Ho.
  { left. rewrite post_book_conflict; auto. right. by apply disabled_test. }
  right. exists D, T, n', e', a', notes. split; [done|].
  rewrite post_book_success; auto.
  rewrite <- disabled_test. by rewrite Ho.
Qed.

Lemma post_admin_availability_bookings st date slots :
  Booking.bookings (Booking.post_admin_availability st date slots).2 = Booking.bookings st.
Proof.
  unfold Booking.post_admin_availability.
  destruct (Js.falsy date || bool_decide (slots = None)); [done|].
  destruct (Js.get (Booking.availabilityOverrides st) (default "" date)); [done | | done].
  by destruct (Js.assign_to_builtin_throws (default "" date) (default ∅ slots)).
Qed.

Lemma protected_bookings st authorization route :
  Booking.bookings (Booking.protected st authorization route).2 = Booking.bookings st.
Proof.
  unfold Booking.protected.
  destruct (Booking.authMiddleware st authorization); [done|].
  destruct route; [done | done | apply post_admin_availability_bookings].
Qed.

Lemma handle_bookings env st (r : Booking.request) :
  Booking.bookings (Booking.handle env st r).2 = Booking.bookings st
  ∨ ∃ (D T n e a : string) notes,
      ¬ Booking.booked st D T
      ∧ Booking.bookings (Booking.handle env st r).2
        = <[D := (Booking.bookings_of st D ++ [Booking.Booking T n e a notes])%list]>
            (Booking.bookings st).
Proof.
  destruct r as [date|req|passcode rnd|a route]; cbn [Booking.handle].
  - left. unfold Booking.get_availability.
    by destruct (Js.falsy date || negb (Js.regex_test Js.date_regex (default "" date))).
  - apply post_book_bookings.
  - left. unfold Booking.post_login.
    by destruct (bool_decide (passcode = Some (Booking.ADMIN_PASSCODE env))).
  - left. apply protected_bookings.
Qed.

Lemma serverjs_handle_bookings st (r : ServerJs.request) :
  ServerJs.bookings (ServerJs.handle st r).2 = ServerJs.bookings st
  ∨ ∃ (D T : string),
      ¬ ServerJs.booked st D T
      ∧ ServerJs.bookings (ServerJs.handle st r).2
        = <[D := (ServerJs.bookings_of st D ++ [T])%list]> (ServerJs.bookings st).
Proof.
  destruct r as [date|req]; cbn [ServerJs.handle].
  - left. unfold ServerJs.get_availability. destruct (Js.falsy date); [done|].
    by destruct (Js.get (ServerJs.bookings st) (default "" date)).
  - destruct (missing_required req) eqn:Hm.
    { left. by rewrite serverjs_post_book_invalid. }
    apply missing_required_false in Hm as (D & T & n' & e' & a' & -> & HD & HT & Hn & He & Ha).
    cbn [req_notes]. set (notes := req_notes _). clearbody notes.
    destruct (get_Builtin_dec (ServerJs.bookings st) D) as [Hget|Hget].
    { left. by rewrite serverjs_post_book_throws. }
    destruct (Js.includes (ServerJs.bookings_of st D) T) eqn:Hb.
    + left. rewrite serverjs_post_book_conflict; auto. by apply includes_In.
    + right. exists D, T. apply includes_not_In in Hb. split; [done|].
      by rewrite serverjs_post_book_success.
Qed.

Lemma handle_at_most_one env st (r : Booking.request) :
  Booking.at_most_one_booking st →
  Booking.at_most_one_booking (Booking.handle env st r).2.
Proof.
  rewrite !at_most_one_NoDup. intros Hinv date. unfold Booking.bookings_of.
  destruct (handle_bookings env st r) as [-> | (D & T & n & e & a & notes & Hfresh & ->)].
  - apply Hinv.
  - destruct (decide (D = date)) as [<-|Hne].
    + rewrite lookup_insert_eq. cbn [from_option id].
      rewrite map_app. apply NoDup_app. split; [apply Hinv|]. split.
      * intros t Ht Ht'. apply list_elem_of_In in Ht' as [Heq|[]].
        cbn [Booking.time] in Heq. subst t. apply Hfresh.
        apply list_elem_of_In, in_map_iff in Ht as (b & Hb & Hin). by exists b.
      * apply NoDup_singleton.
    + rewrite lookup_insert_ne by done. apply Hinv.
Qed.

Lemma serverjs_handle_at_most_one st (r : ServerJs.request) :
  ServerJs.at_most_one_booking st →
  ServerJs.at_most_one_booking (ServerJs.handle st r).2.
Proof.
  rewrite !serverjs_at_most_one_NoDup. intros Hinv date. unfold ServerJs.bookings_of.
  destruct (serverjs_handle_bookings st r) as [-> | (D & T & Hfresh & ->)].
  - apply Hinv.
  - destruct (decide (D = date)) as [<-|Hne].
    + rewrite lookup_insert_eq. cbn [from_option id].
      apply NoDup_app. split; [apply Hinv|]. split.
      * intros t Ht Ht'. apply list_elem_of_In in Ht' as [Heq|[]].
        subst t. apply Hfresh. by apply list_elem_of_In.
      * apply NoDup_singleton.
    + rewrite lookup_insert_ne by done. apply Hinv.
Qed.

Lemma init_at_most_one : Booking.at_most_one_booking Booking.init.
Proof. intros date slot. unfold Booking.records_for, Booking.bookings_of. simpl. rewrite lookup_empty. simpl. lia. Qed.

Lemma serverjs_init_at_most_one : ServerJs.at_most_one_booking ServerJs.init.
Proof. intros date slot. unfold ServerJs.records_for, ServerJs.bookings_of. simpl. rewrite lookup_empty. simpl. lia. Qed.

(** C3. In every reachable state of either server there is at most one
    booking record for each (date, slot), and every operation (availability
    query, booking, login, the admin listings, the override update) keeps it
    so from any state in which it holds. *)
Theorem C3_at_most_one_booking env :
  (∀ st, Booking.reachable env st → Booking.at_most_one_booking st)
  ∧ (∀ st r, Booking.at_most_one_booking st →
       Booking.at_most_one_booking (Booking.handle env st r).2)
  ∧ (∀ st, ServerJs.reachable st → ServerJs.at_most_one_booking st)
  ∧ (∀ st r, ServerJs.at_most_one_booking st →
       ServerJs.at_most_one_booking (ServerJs.handle st r).2).
Proof.
  split; [|split; [|split]].
  - intros st Hreach. induction Hreach as [|st r Hreach IH].
    + apply init_at_most_one.
    + by apply handle_at_most_one.
  - intros st r. apply handle_at_most_one.
  - intros st Hreach. induction Hreach as [|st r Hreach IH].
    + apply serverjs_init_at_most_one.
    + by apply serverjs_handle_at_most_one.
  - intros st r. apply serverjs_handle_at_most_one.
Qed.

Lemma C3_witness :
  Booking.at_most_one_booking
    (Booking.handle None
       (Booking.handle None Booking.init
          (Booking.PostBook
             (BookBody (Some "2025-10-28") (Some "09:00 AM - 10:00 AM") (Some "A")
                (Some "a@x.com") (Some "1 Main St") None))).2
       (Booking.PostBook
          (BookBody (Some "2025-10-28") (Some "09:00 AM - 10:00 AM") (Some "B")
             (Some "b@x.com") (Some "2 Main St") None))).2.
Proof.
  apply (proj1 (C3_at_most_one_booking None)).
  apply Booking.steps_step, Booking.steps_step, Booking.steps_refl.
Defined.

(** ** Bookings are never removed *)





(** C10, at its failing input.  A booking request with all required fields
    for the date "__proto__" and the time "midnight", neither booked nor
    disabled, is not answered 201 and no record is stored:
    [bookings["__proto__"]] is [Object.prototype], the conflict check throws,
    and both servers answer 500 and leave the stores as they were. *)
Theorem C10_proto_date_uncaught :
  ¬ Booking.booked Booking.init "__proto__" "midnight"
  ∧ Booking.override Booking.init "__proto__" "midnight" ≠ Some false
  ∧ Booking.handle None Booking.init
      (Booking.PostBook
         (BookBody (Some "__proto__") (Some "midnight") (Some "A") (Some "a@x.com")
            (Some "1 Main St") None))
    = (Booking.Response 500 Booking.InternalServerError, Booking.init)
  ∧ ServerJs.handle ServerJs.init
      (ServerJs.PostBook
         (BookBody (Some "__proto__") (Some "midnight") (Some "A") (Some "a@x.com")
            (Some "1 Main St") None))
    = (ServerJs.Response 500 ServerJs.InternalServerError, ServerJs.init).
Proof.
  split; [by intros (b & [] & _)|]. split; [discriminate|].
  split; reflexivity.
Qed.



(** ** Admin tokens *)

Lemma hex_digit_not_space (n : N) : Js.hex_digit n ≠ " "%char.
Proof.
  unfold Js.hex_digit.
  repeat match goal with
         | |- context [match ?x with _ => _ end] => destruct x
         end; discriminate.
Qed.

(** A hex string contains no space, so splitting it at spaces yields it whole. *)
Lemma split_toString_hex (buf : list Byte.byte) :
  Js.split " " (Js.toString_hex buf) = [Js.toString_hex buf].
Proof.
  induction buf as [|b buf IH]; [reflexivity|].
  cbn [Js.toString_hex Js.split]. rewrite IH.
  destruct (decide (Js.hex_digit (Byte.to_N b mod 16) = " "%char)) as [Hsp|_];
    [by apply hex_digit_not_space in Hsp|].
  destruct (decide (Js.hex_digit (Byte.to_N b / 16) = " "%char)) as [Hsp|_];
    [by apply hex_digit_not_space in Hsp|].
  reflexivity.
Qed.

Lemma split_bearer_token (tok : string) :
  Js.split " " ("Bearer " ++ tok) = "Bearer" :: Js.split " " tok.
Proof.
  cbv [String.append]. fold String.append. cbn [Js.split].
  repeat match goal with
         | |- context [decide (?a = ?b)] => destruct (decide (a = b)); try discriminate
         end; [reflexivity | congruence].
Qed.

Lemma startsWith_bearer (tok : string) : Js.startsWith "Bearer " ("Bearer " ++ tok) = true.
Proof. reflexivity. Qed.

Lemma authMiddleware_no_header st :
  Booking.authMiddleware st None
  = Some (Booking.Response 401 (Booking.Message "Authorization token is required.")).
Proof. reflexivity. Qed.

Lemma startsWith_truthy (p h : string) :
  p ≠ "" → Js.startsWith p h = true → Js.falsy (Some h) = false.
Proof.
  intros Hp Hh. apply falsy_false. exists h. split; [done|]. intros ->.
  destruct p; [done | discriminate].
Qed.

(** A header that is present but does not start with "Bearer " is answered
    like a missing one. *)
Lemma authMiddleware_not_bearer st (h : string) :
  Js.startsWith "Bearer " h = false →
  Booking.authMiddleware st (Some h)
  = Some (Booking.Response 401 (Booking.Message "Authorization token is required.")).
Proof.
  intros Hh. unfold Booking.authMiddleware. cbn [from_option id].
  rewrite Hh. by rewrite orb_true_r.
Qed.

Lemma authMiddleware_unknown_token st (h tok : string) :
  Js.startsWith "Bearer " h = true →
  Js.split " " h !! 1%nat = Some tok →
  tok ∉ Booking.validTokens st →
  Booking.authMiddleware st (Some h)
  = Some (Booking.Response 403 (Booking.Message "Invalid or expired token.")).
Proof.
  intros Hh Htok Hnot. unfold Booking.authMiddleware.
  rewrite (startsWith_truthy "Bearer " h) by done.
  cbn [from_option id]. rewrite Hh. cbn [negb orb]. rewrite Htok.
  cbn [Booking.has]. by rewrite bool_decide_false.
Qed.

Lemma authMiddleware_valid_token st (buf : list Byte.byte) :
  Js.toString_hex buf ∈ Booking.validTokens st →
  Booking.authMiddleware st (Some ("Bearer " ++ Js.toString_hex buf)) = None.
Proof.
  intros Hin. unfold Booking.authMiddleware.
  rewrite (startsWith_truthy "Bearer " ("Bearer " ++ Js.toString_hex buf))
    by (done || apply startsWith_bearer).
  cbn [from_option id]. rewrite startsWith_bearer, split_bearer_token, split_toString_hex.
  cbn [negb orb]. change (["Bearer"; Js.toString_hex buf] !! 1%nat) with (Some (Js.toString_hex buf)).
  cbn [Booking.has]. by rewrite bool_decide_true.
Qed.

(** Tokens are never removed. *)
Lemma handle_tokens env st (r : Booking.request) :
  Booking.validTokens st ⊆ Booking.validTokens (Booking.handle env st r).2.
Proof.
  destruct r as [date|req|passcode rnd|a route]; cbn [Booking.handle].
  - unfold Booking.get_availability.
    by destruct (Js.falsy date || negb (Js.regex_test Js.date_regex (default "" date))).
  - unfold Booking.post_book. by handler_cases.
  - unfold Booking.post_login.
    destruct (bool_decide (passcode = Some (Booking.ADMIN_PASSCODE env))); [|done].
    cbn [snd Booking.validTokens]. set_solver.
  - unfold Booking.protected. destruct (Booking.authMiddleware st a); [done|].
    destruct route as [| |date slots]; [done | done |].
    cbn [Booking.admin_route_handler]. unfold Booking.post_admin_availability.
    by handler_cases.
Qed.

Lemma steps_tokens env st1 st2 :
  Booking.steps env st1 st2 → Booking.validTokens st1 ⊆ Booking.validTokens st2.
Proof.
  intros Hsteps. induction Hsteps as [|st2 r Hsteps IH]; [done|].
  etrans; [exact IH | apply handle_tokens].
Qed.

Lemma authMiddleware_status st authorization denied :
  Booking.authMiddleware st authorization = Some denied →
  Booking.status denied = 401 ∨ Booking.status denied = 403.
Proof.
  unfold Booking.authMiddleware.
  repeat match goal with |- context [if ?c then _ else _] => destruct c end;
    intros [= <-]; auto.
Qed.

Lemma admin_route_handler_status route st :
  Booking.status (Booking.admin_route_handler route st).1 = 200
  ∨ Booking.status (Booking.admin_route_handler route st).1 = 400
  ∨ Booking.status (Booking.admin_route_handler route st).1 = 500.
Proof.
  destruct route as [| |date slots]; cbn [Booking.admin_route_handler]; auto.
  unfold Booking.post_admin_availability. handler_cases; auto.
Qed.

(** C4. On every protected admin route (the bookings listing, the overrides
    listing, the overrides update): a request without Authorization header is
    answered 401; a request whose header starts with "Bearer " and presents a
    token that is not in the valid-token set is answered 403; a login with the
    correct passcode answers with a token, adds exactly that token to the
    valid-token set, and from then on a request that presents this token
    reaches the handler of each of those routes. *)
Theorem C4_admin_access env st :
  (∀ route,
     Booking.handle env st (Booking.Admin None route)
     = (Booking.Response 401 (Booking.Message "Authorization token is required."), st))
  ∧ (∀ route (h tok : string),
       Js.startsWith "Bearer " h = true →
       Js.split " " h !! 1%nat = Some tok →
       tok ∉ Booking.validTokens st →
       Booking.handle env st (Booking.Admin (Some h) route)
       = (Booking.Response 403 (Booking.Message "Invalid or expired token."), st))
  ∧ (∀ randomBytes, ∃ st1,
       Booking.handle env st
         (Booking.PostLogin (Some (Booking.ADMIN_PASSCODE env)) randomBytes)
       = (Booking.Response 200 (Booking.Token (Js.toString_hex randomBytes)), st1)
       ∧ Booking.validTokens st1 = {[Js.toString_hex randomBytes]} ∪ Booking.validTokens st
       ∧ Booking.bookings st1 = Booking.bookings st
       ∧ Booking.availabilityOverrides st1 = Booking.availabilityOverrides st
       ∧ ∀ st2 route, Booking.steps env st1 st2 →
           Booking.handle env st2
             (Booking.Admin (Some ("Bearer " ++ Js.toString_hex randomBytes)) route)
           = Booking.admin_route_handler route st2
           ∧ Booking.status
               (Booking.handle env st2
                  (Booking.Admin (Some ("Bearer " ++ Js.toString_hex randomBytes)) route)).1
             ≠ 401
           ∧ Booking.status
               (Booking.handle env st2
                  (Booking.Admin (Some ("Bearer " ++ Js.toString_hex randomBytes)) route)).1
             ≠ 403).
Proof.
  split; [|split].
  - intros route. reflexivity.
  - intros route h tok Hh Htok Hnot. cbn [Booking.handle]. unfold Booking.protected.
    by rewrite (authMiddleware_unknown_token st h tok).
  - intros randomBytes. eexists. split.
    { cbn [Booking.handle]. unfold Booking.post_login.
      rewrite bool_decide_true by done. reflexivity. }
    cbn [Booking.validTokens Booking.bookings Booking.availabilityOverrides].
    split; [done|]. split; [done|]. split; [done|].
    intros st2 route Hsteps.
    assert (Booking.authMiddleware st2 (Some ("Bearer " ++ Js.toString_hex randomBytes))
            = None) as Hauth.
    { apply authMiddleware_valid_token, (steps_tokens _ _ _ Hsteps).
      cbn [Booking.validTokens]. set_solver. }
    cbn [Booking.handle]. unfold Booking.protected. rewrite Hauth. split; [done|].
    destruct (admin_route_handler_status route st2) as [-> | [-> | ->]]; split; discriminate.
Qed.

Lemma C4_witness :
  Booking.handle None Booking.init (Booking.Admin (Some "Bearer deadbeef") Booking.GetBookings)
  = (Booking.Response 403 (Booking.Message "Invalid or expired token."), Booking.init).
Proof.
  apply (proj1 (proj2 (C4_admin_access None Booking.init))
           Booking.GetBookings "Bearer deadbeef" "deadbeef");
    [reflexivity | reflexivity | apply not_elem_of_empty].
Defined.

(** ** Availability overrides *)

(** What [Object.assign] leaves in the target, key by key. *)
Lemma Object_assign_lookup {V} (target source : gmap string V) (k : string) :
  k ≠ "__proto__" ∨ is_Some (target !! "__proto__") →
  Js.Object_assign target source !! k
  = match source !! k with
    | Some v => Some v
    | None => target !! k
    end.
Proof.
  intros Hk. unfold Js.Object_assign.
  destruct (target !! "__proto__") as [p|] eqn:Hproto.
  - destruct (source !! k) as [v|] eqn:Hs;
      [by apply lookup_union_Some_l | by apply lookup_union_r].
  - destruct Hk as [Hk | [? [=]]].
    destruct (source !! k) as [v|] eqn:Hs.
    + apply lookup_union_Some_l. by rewrite lookup_delete_ne.
    + apply lookup_union_r. by rewrite lookup_delete_ne.
Qed.


(** The state an accepted override update produces, for a date under which
    the store reads no built-in. *)
Lemma admin_patch_accepted env st authorization (d : string) (patch : gmap string bool) :
  Booking.authMiddleware st authorization = None →
  d ≠ "" →
  Js.get (Booking.availabilityOverrides st) d ≠ Js.Builtin →
  Booking.handle env st
    (Booking.Admin authorization (Booking.PostAvailability (Some d) (Some patch)))
  = (Booking.Response 200 (Booking.Success ("Availability for " ++ d ++ " updated.")),
     Booking.State (Booking.bookings st)
       (<[d := Js.Object_assign (default ∅ (Booking.availabilityOverrides st !! d)) patch]>
          (Booking.availabilityOverrides st))
       (Booking.validTokens st)).
Proof.
  intros Hauth Hd Hget. cbn [Booking.handle]. unfold Booking.protected. rewrite Hauth.
  cbn [Booking.admin_route_handler]. unfold Booking.post_admin_availability.
  assert (Js.falsy (Some d) = false) as -> by (apply falsy_false; eauto).
  rewrite bool_decide_false by done. cbn [orb from_option id].
  by rewrite get_match.
Qed.

Lemma override_after_patch st (d : string) (patch : gmap string bool) (d' k : string) :
  k ≠ "__proto__" →
  Booking.override
    (Booking.State (Booking.bookings st)
       (<[d := Js.Object_assign (default ∅ (Booking.availabilityOverrides st !! d)) patch]>
          (Booking.availabilityOverrides st))
       (Booking.validTokens st)) d' k
  = if decide (d' = d) then
      match patch !! k with
      | Some v => Some v
      | None => Booking.override st d k
      end
    else Booking.override st d' k.
Proof.
  intros Hk. unfold Booking.override. cbn [Booking.availabilityOverrides].
  destruct (decide (d' = d)) as [->|Hne].
  - rewrite lookup_insert_eq. cbn. rewrite Object_assign_lookup by auto.
    destruct (patch !! k); [done|].
    destruct (Booking.availabilityOverrides st !! d); cbn; [done | apply lookup_empty].
  - by rewrite lookup_insert_ne.
Qed.

(** C9, at its failing input.  An override update for the date "__proto__"
    that presents a valid token is answered 200, yet no entry is stored under the
    date: [availabilityOverrides["__proto__"]] is [Object.prototype], so
    [Object.assign] writes the patch onto [Object.prototype], from which every
    object of the process, the entry of every other date included, inherits
    it.  Likewise a patch key "__proto__" is answered 200 and not stored. *)
Theorem C9_proto_date_not_stored :
  Booking.handle None logged_in_state
    (Booking.Admin (Some admin_header)
       (Booking.PostAvailability (Some "__proto__")
          (Some {[ "08:00 AM - 09:00 AM" := false ]})))
  = (Booking.Response 200 (Booking.Success "Availability for __proto__ updated."),
     logged_in_state)
  ∧ Booking.override logged_in_state "__proto__" "08:00 AM - 09:00 AM" = None
  ∧ Booking.status
      (Booking.handle None logged_in_state
         (Booking.Admin (Some admin_header)
            (Booking.PostAvailability (Some "2025-10-29") (Some {[ "__proto__" := false ]})))).1
    = 200
  ∧ Booking.override
      (Booking.handle None logged_in_state
         (Booking.Admin (Some admin_header)
            (Booking.PostAvailability (Some "2025-10-29") (Some {[ "__proto__" := false ]})))).2
      "2025-10-29" "__proto__" = None.
Proof. vm_compute. repeat split. Qed.


(** On the inherited [Object] a patch that sets the read-only [name] throws;
    a patch of slot labels is written onto [Object] and answered 200.  Neither
    changes a store. *)
Example constructor_patch :
  Booking.handle None logged_in_state
    (Booking.Admin (Some admin_header)
       (Booking.PostAvailability (Some "constructor") (Some {[ "name" := true ]})))
  = (Booking.Response 500 Booking.InternalServerError, logged_in_state)
  ∧ Booking.handle None logged_in_state
      (Booking.Admin (Some admin_header)
         (Booking.PostAvailability (Some "constructor")
            (Some {[ "08:00 AM - 09:00 AM" := false ]})))
    = (Booking.Response 200 (Booking.Success "Availability for constructor updated."),
       logged_in_state).
Proof. vm_compute. by split. Qed.

Example patch_request_ok :
  Booking.status (Booking.handle None logged_in_state patch_request).1 = 200.
Proof. vm_compute. reflexivity. Qed.


(** * Further properties of the handlers *)

(** ** Which request may change which store *)

(** X1. A request changes the booking store only if it is a booking request
    that is answered 201; every other request, and every booking request
    answered 400 or 409, leaves the booking store as it is. *)
Theorem X1_bookings_changed_only_by_booking env st (r : Booking.request) :
  Booking.bookings (Booking.handle env st r).2 = Booking.bookings st
  ∨ ∃ req, r = Booking.PostBook req
           ∧ Booking.status (Booking.handle env st r).1 = 201.
Proof.
  destruct r as [date|req|passcode rnd|a route]; cbn [Booking.handle].
  - left. unfold Booking.get_availability.
    by destruct (Js.falsy date || negb (Js.regex_test Js.date_regex (default "" date))).
  - unfold Booking.post_book. handler_cases; first [by left | right; by exists req].
  - left. unfold Booking.post_login.
    by destruct (bool_decide (passcode = Some (Booking.ADMIN_PASSCODE env))).
  - left. apply protected_bookings.
Qed.

(** X2. A request changes the override store only if it is an override update
    whose Authorization header passes [authMiddleware] and which is answered
    200: no public request and no request without a valid token can change an
    override. *)
Theorem X2_overrides_changed_only_with_token env st (r : Booking.request) :
  Booking.availabilityOverrides (Booking.handle env st r).2
    = Booking.availabilityOverrides st
  ∨ ∃ (h : string) date slots,
      r = Booking.Admin (Some h) (Booking.PostAvailability date slots)
      ∧ Booking.authMiddleware st (Some h) = None
      ∧ Booking.status (Booking.handle env st r).1 = 200.
Proof.
  destruct r as [date|req|passcode rnd|a route]; cbn [Booking.handle].
  - left. unfold Booking.get_availability.
    by destruct (Js.falsy date || negb (Js.regex_test Js.date_regex (default "" date))).
  - left. unfold Booking.post_book. by handler_cases.
  - left. unfold Booking.post_login.
    by destruct (bool_decide (passcode = Some (Booking.ADMIN_PASSCODE env))).
  - unfold Booking.protected.
    destruct (Booking.authMiddleware st a) as [denied|] eqn:Hauth; [by left|].
    destruct a as [h|]; [|discriminate].
    destruct route as [| |date slots]; [by left | by left |].
    cbn [Booking.admin_route_handler]. unfold Booking.post_admin_availability.
    handler_cases; first [by left | right; by exists h, date, slots].
Qed.

(** X3. A request changes the valid-token set only if it is a login that
    presents exactly the configured passcode; bookings, queries, failed logins
    and admin requests never add or remove a token. *)
Theorem X3_tokens_changed_only_by_login env st (r : Booking.request) :
  Booking.validTokens (Booking.handle env st r).2 = Booking.validTokens st
  ∨ ∃ randomBytes,
      r = Booking.PostLogin (Some (Booking.ADMIN_PASSCODE env)) randomBytes.
Proof.
  destruct r as [date|req|passcode rnd|a route]; cbn [Booking.handle].
  - left. unfold Booking.get_availability.
    by destruct (Js.falsy date || negb (Js.regex_test Js.date_regex (default "" date))).
  - left. unfold Booking.post_book. by handler_cases.
  - unfold Booking.post_login.
    destruct (bool_decide (passcode = Some (Booking.ADMIN_PASSCODE env))) eqn:Hp; [|by left].
    apply bool_decide_eq_true in Hp as ->. right. by exists rnd.
  - left. unfold Booking.protected. destruct (Booking.authMiddleware st a); [done|].
    destruct route as [| |date slots]; [done | done |].
    cbn [Booking.admin_route_handler]. unfold Booking.post_admin_availability.
    by handler_cases.
Qed.

(** X4. The availability query is read-only on both servers: it returns the
    state it was given, so asking again gives the identical answer. *)
Theorem X4_availability_idempotent env st st' (date : option string) :
  (Booking.handle env st (Booking.GetAvailability date)).2 = st
  ∧ Booking.handle env (Booking.handle env st (Booking.GetAvailability date)).2
      (Booking.GetAvailability date)
    = Booking.handle env st (Booking.GetAvailability date)
  ∧ (ServerJs.handle st' (ServerJs.GetAvailability date)).2 = st'
  ∧ ServerJs.handle (ServerJs.handle st' (ServerJs.GetAvailability date)).2
      (ServerJs.GetAvailability date)
    = ServerJs.handle st' (ServerJs.GetAvailability date).
Proof.
  assert ((Booking.get_availability st date).2 = st) as Hb.
  { unfold Booking.get_availability.
    by destruct (Js.falsy date || negb (Js.regex_test Js.date_regex (default "" date))). }
  assert ((ServerJs.get_availability st' date).2 = st') as Hs.
  { unfold ServerJs.get_availability. by handler_cases. }
  cbn [Booking.handle ServerJs.handle]. by rewrite Hb, Hs.
Qed.

(** ** Passcode and tokens *)

Lemma ADMIN_PASSCODE_nonempty env : Booking.ADMIN_PASSCODE env ≠ "".
Proof.
  unfold Booking.ADMIN_PASSCODE. destruct (Js.falsy env) eqn:Henv; [discriminate|].
  apply falsy_false in Henv as (p & -> & Hp). exact Hp.
Qed.

Lemma post_login_status env st passcode randomBytes :
  Booking.status (Booking.post_login env st passcode randomBytes).1 = 200
  ↔ passcode = Some (Booking.ADMIN_PASSCODE env).
Proof.
  unfold Booking.post_login.
  destruct (bool_decide (passcode = Some (Booking.ADMIN_PASSCODE env))) eqn:Hp.
  - apply bool_decide_eq_true in Hp. by split.
  - apply bool_decide_eq_false in Hp. split; [discriminate | done].
Qed.

(** X5. Whatever passcode is configured, a login whose passcode is missing or
    empty is answered 401 and changes nothing: the configured passcode is
    never the empty string, because an unset or empty environment variable
    falls back to the default. *)
Theorem X5_empty_passcode_rejected env st (passcode : option string) randomBytes :
  absent_or_empty passcode →
  Booking.handle env st (Booking.PostLogin passcode randomBytes)
  = (Booking.Response 401 (Booking.Message "Invalid passcode."), st).
Proof.
  intros Hp. cbn [Booking.handle]. unfold Booking.post_login.
  rewrite bool_decide_false; [done|].
  pose proof (ADMIN_PASSCODE_nonempty env) as Hne.
  destruct Hp as [-> | ->]; [discriminate | congruence].
Qed.

Lemma X5_witness :
  Booking.handle (Some "") Booking.init (Booking.PostLogin (Some "") [])
  = (Booking.Response 401 (Booking.Message "Invalid passcode."), Booking.init).
Proof.
  apply (X5_empty_passcode_rejected (Some "") Booking.init (Some "") []).
  right. reflexivity.
Defined.

(** X6. With the environment variable unset or empty a login succeeds exactly
    with the default passcode "secret123"; with the variable set to a
    non-empty string [p] it succeeds exactly with [p], so the default stops
    working unless it is [p] itself. *)
Theorem X6_passcode_from_environment env st (passcode : option string) randomBytes :
  (env = None ∨ env = Some "" →
     (Booking.status (Booking.handle env st (Booking.PostLogin passcode randomBytes)).1 = 200
      ↔ passcode = Some "secret123"))
  ∧ (∀ p, env = Some p → p ≠ "" →
       (Booking.status (Booking.handle env st (Booking.PostLogin passcode randomBytes)).1 = 200
        ↔ passcode = Some p)).
Proof.
  cbn [Booking.handle]. split.
  - rewrite post_login_status. by intros [-> | ->].
  - intros p -> Hp. rewrite post_login_status.
    unfold Booking.ADMIN_PASSCODE, Js.falsy. by destruct (decide (p = "")).
Qed.

Lemma X6_witness :
  Booking.status
    (Booking.handle (Some "hunter2") Booking.init
       (Booking.PostLogin (Some "secret123") [])).1 ≠ 200.
Proof.
  intros H200.
  apply (proj2 (X6_passcode_from_environment (Some "hunter2") Booking.init
                  (Some "secret123") []) "hunter2" eq_refl) in H200; discriminate.
Defined.

(** The sixteen hexadecimal digits. *)
Lemma hex_digit_range (n : N) :
  In (Js.hex_digit n) (list_ascii_of_string "0123456789abcdef").
Proof.
  unfold Js.hex_digit.
  repeat match goal with
         | |- context [match ?x with _ => _ end] => destruct x
         end; cbn; tauto.
Qed.

(** X7. The token of a login is the hexadecimal rendering of the random
    buffer: two characters per byte (32 for the 16 bytes the handler asks
    for), each one of 0-9 or a-f. *)
Theorem X7_token_shape (buf : list Byte.byte) :
  String.length (Js.toString_hex buf) = (2 * length buf)%nat
  ∧ ∀ c, In c (list_ascii_of_string (Js.toString_hex buf)) →
         In c (list_ascii_of_string "0123456789abcdef").
Proof.
  induction buf as [|b buf [IHlen IHchars]]; [by split; [|intros c []]|].
  split.
  - cbn [Js.toString_hex String.length length]. rewrite IHlen. lia.
  - intros c. cbn [Js.toString_hex list_ascii_of_string].
    intros [<- | [<- | Hc]]; [apply hex_digit_range .. | by apply IHchars].
Qed.

Lemma hex_digit_inj (n m : N) :
  (n < 16)%N → (m < 16)%N → Js.hex_digit n = Js.hex_digit m → n = m.
Proof.
  intros Hn Hm.
  assert (n = 0 ∨ n = 1 ∨ n = 2 ∨ n = 3 ∨ n = 4 ∨ n = 5 ∨ n = 6 ∨ n = 7 ∨ n = 8
          ∨ n = 9 ∨ n = 10 ∨ n = 11 ∨ n = 12 ∨ n = 13 ∨ n = 14 ∨ n = 15)%N as Hn' by lia.
  assert (m = 0 ∨ m = 1 ∨ m = 2 ∨ m = 3 ∨ m = 4 ∨ m = 5 ∨ m = 6 ∨ m = 7 ∨ m = 8
          ∨ m = 9 ∨ m = 10 ∨ m = 11 ∨ m = 12 ∨ m = 13 ∨ m = 14 ∨ m = 15)%N as Hm' by lia.
  clear Hn Hm.
  repeat destruct Hn' as [-> | Hn']; try subst n;
    repeat destruct Hm' as [-> | Hm']; try subst m;
    cbn; intros Heq; first [reflexivity | discriminate Heq].
Qed.

Lemma toString_hex_inj (buf1 buf2 : list Byte.byte) :
  Js.toString_hex buf1 = Js.toString_hex buf2 → buf1 = buf2.
Proof.
  revert buf2. induction buf1 as [|b1 buf1 IH]; intros [|b2 buf2]; cbn [Js.toString_hex];
    [done | discriminate | discriminate |].
  intros [= Hhi Hlo Hrest]. f_equal; [|by apply IH].
  pose proof (Byte.to_N_bounded b1) as Hb1. pose proof (Byte.to_N_bounded b2) as Hb2.
  apply hex_digit_inj in Hhi; [|apply N.Div0.div_lt_upper_bound; lia ..].
  apply hex_digit_inj in Hlo; [|apply N.mod_lt; lia ..].
  assert (Byte.to_N b1 = Byte.to_N b2) as Hto.
  { rewrite (N.div_mod (Byte.to_N b1) 16), (N.div_mod (Byte.to_N b2) 16) by lia.
    by rewrite Hhi, Hlo. }
  apply (f_equal Byte.of_N) in Hto. rewrite !Byte.of_to_N in Hto. congruence.
Qed.

(** X8. Different random buffers give different tokens: the hexadecimal
    rendering loses no information. *)
Theorem X8_token_injective (buf1 buf2 : list Byte.byte) :
  buf1 ≠ buf2 → Js.toString_hex buf1 ≠ Js.toString_hex buf2.
Proof. intros Hne Heq. by apply Hne, toString_hex_inj. Qed.

Lemma X8_witness : Js.toString_hex [Byte.x0a; Byte.x10] ≠ Js.toString_hex [Byte.x0a; Byte.x01].
Proof. apply (X8_token_injective [Byte.x0a; Byte.x10] [Byte.x0a; Byte.x01]). discriminate. Defined.

Lemma handle_tokens_login env st (r : Booking.request) :
  Booking.validTokens (Booking.handle env st r).2 = Booking.validTokens st
  ∨ ∃ randomBytes,
      r = Booking.PostLogin (Some (Booking.ADMIN_PASSCODE env)) randomBytes
      ∧ Booking.validTokens (Booking.handle env st r).2
        = {[Js.toString_hex randomBytes]} ∪ Booking.validTokens st.
Proof.
  destruct (decide (Booking.validTokens (Booking.handle env st r).2
                    = Booking.validTokens st)) as [Heq|Hne]; [by left|].
  right. destruct r as [date|req|passcode rnd|a route]; cbn [Booking.handle] in *.
  - exfalso. apply Hne. unfold Booking.get_availability.
    by destruct (Js.falsy date || negb (Js.regex_test Js.date_regex (default "" date))).
  - exfalso. apply Hne. unfold Booking.post_book. by handler_cases.
  - unfold Booking.post_login in *.
    destruct (bool_decide (passcode = Some (Booking.ADMIN_PASSCODE env))) eqn:Hp; [|done].
    apply bool_decide_eq_true in Hp as ->. by exists rnd.
  - exfalso. apply Hne. unfold Booking.protected.
    destruct (Booking.authMiddleware st a); [done|].
    destruct route as [| |date slots]; [done | done |].
    cbn [Booking.admin_route_handler]. unfold Booking.post_admin_availability.
    by handler_cases.
Qed.

Lemma login_adds_token env st randomBytes :
  Booking.validTokens
    (Booking.handle env st
       (Booking.PostLogin (Some (Booking.ADMIN_PASSCODE env)) randomBytes)).2
  = {[Js.toString_hex randomBytes]} ∪ Booking.validTokens st.
Proof.
  cbn [Booking.handle]. unfold Booking.post_login. by rewrite bool_decide_true.
Qed.

Lemma run_tokens env (rs : list Booking.request) st (tok : string) :
  tok ∈ Booking.validTokens (Booking.run env st rs)
  ↔ tok ∈ Booking.validTokens st
    ∨ ∃ randomBytes,
        In (Booking.PostLogin (Some (Booking.ADMIN_PASSCODE env)) randomBytes) rs
        ∧ tok = Js.toString_hex randomBytes.
Proof.
  revert st. induction rs as [|r rs IH]; intros st.
  - cbn. split; [by left | by intros [? | (? & [] & _)]].
  - change (Booking.run env st (r :: rs))
      with (Booking.run env (Booking.handle env st r).2 rs).
    rewrite IH. split.
    + intros [Hnow | (rnd & Hin & ->)].
      * destruct (handle_tokens_login env st r) as [Hsame | (rnd & -> & Hadd)].
        { left. by rewrite <- Hsame. }
        rewrite Hadd, elem_of_union, elem_of_singleton in Hnow.
        destruct Hnow as [-> | Hold]; [|by left].
        right. exists rnd. split; [by left | done].
      * right. exists rnd. split; [by right | done].
    + intros [Hold | (rnd & [-> | Hin] & ->)].
      * left. by apply (handle_tokens env st r).
      * left. rewrite login_adds_token. apply elem_of_union_l. by apply elem_of_singleton.
      * right. by exists rnd.
Qed.

(** X9. After any sequence of requests from start-up, a string is a valid
    token exactly when some login of the sequence presented the configured
    passcode and that string is the hexadecimal rendering of the random
    buffer drawn for that login: tokens come from successful logins only, and
    none is ever withdrawn. *)
Theorem X9_valid_tokens_are_login_tokens env (rs : list Booking.request) (tok : string) :
  tok ∈ Booking.validTokens (Booking.run env Booking.init rs)
  ↔ ∃ randomBytes,
      In (Booking.PostLogin (Some (Booking.ADMIN_PASSCODE env)) randomBytes) rs
      ∧ tok = Js.toString_hex randomBytes.
Proof.
  rewrite run_tokens. cbn [Booking.init Booking.validTokens]. split.
  - intros [Hempty | Hlogin]; [set_solver | done].
  - by right.
Qed.

Example forged_token_never_valid :
  "deadbeef" ∉ Booking.validTokens
    (Booking.run None Booking.init
       [Booking.PostBook example_booking;
        Booking.PostLogin (Some "wrong") [Byte.xde; Byte.xad; Byte.xbe; Byte.xef];
        Booking.PostLogin (Some "secret123") [Byte.x2a; Byte.x2a];
        Booking.Admin (Some "Bearer deadbeef") Booking.GetBookings]).
Proof. vm_compute. set_solver. Qed.

(** ** The access gate *)

Lemma authMiddleware_no_tokens st authorization :
  Booking.validTokens st = ∅ →
  ∃ denied, Booking.authMiddleware st authorization = Some denied.
Proof.
  intros Hempty. unfold Booking.authMiddleware.
  destruct (Js.falsy authorization || negb (Js.startsWith "Bearer " (default "" authorization)));
    [by eexists|].
  assert (Booking.has (Booking.validTokens st)
            (Js.split " " (default "" authorization) !! 1%nat) = false) as ->.
  { rewrite Hempty. destruct (Js.split " " (default "" authorization) !! 1%nat); [|done].
    cbn [Booking.has]. by rewrite bool_decide_false by set_solver. }
  by eexists.
Qed.

(** X10. While no login has succeeded (the valid-token set is empty, as at
    start-up), every request to a protected admin route, whatever its header
    and body, is answered 401 or 403 and changes nothing. *)
Theorem X10_admin_closed_without_login env st authorization route :
  Booking.validTokens st = ∅ →
  (Booking.status (Booking.handle env st (Booking.Admin authorization route)).1 = 401
   ∨ Booking.status (Booking.handle env st (Booking.Admin authorization route)).1 = 403)
  ∧ (Booking.handle env st (Booking.Admin authorization route)).2 = st.
Proof.
  intros Hempty. cbn [Booking.handle]. unfold Booking.protected.
  destruct (authMiddleware_no_tokens st authorization Hempty) as (denied & Hdenied).
  rewrite Hdenied. split; [|done]. by apply (authMiddleware_status st authorization).
Qed.

Lemma X10_witness :
  (Booking.handle None Booking.init
     (Booking.Admin (Some "Bearer 2a2a")
        (Booking.PostAvailability (Some "2025-10-28")
           (Some {[ "08:00 AM - 09:00 AM" := false ]})))).2 = Booking.init.
Proof.
  apply (X10_admin_closed_without_login None Booking.init (Some "Bearer 2a2a")
           (Booking.PostAvailability (Some "2025-10-28")
              (Some {[ "08:00 AM - 09:00 AM" := false ]}))).
  reflexivity.
Defined.

(** X11. A request whose Authorization header is present but does not start
    with "Bearer " (a bare token, another scheme, or "bearer" in lower case)
    is answered 401 on every protected route, even if the text it carries is
    a valid token, and changes nothing. *)
Theorem X11_bearer_scheme_required env st (h : string) route :
  Js.startsWith "Bearer " h = false →
  Booking.handle env st (Booking.Admin (Some h) route)
  = (Booking.Response 401 (Booking.Message "Authorization token is required."), st).
Proof.
  intros Hh. cbn [Booking.handle]. unfold Booking.protected.
  by rewrite (authMiddleware_not_bearer st h Hh).
Qed.

Lemma X11_witness :
  Booking.handle None logged_in_state
    (Booking.Admin (Some "bearer 2a2a2a2a2a2a2a2a2a2a2a2a2a2a2a2a") Booking.GetBookings)
  = (Booking.Response 401 (Booking.Message "Authorization token is required."),
     logged_in_state).
Proof.
  apply (X11_bearer_scheme_required None logged_in_state
           "bearer 2a2a2a2a2a2a2a2a2a2a2a2a2a2a2a2a" Booking.GetBookings).
  reflexivity.
Defined.

Lemma split_toString_hex_space (buf : list Byte.byte) (rest : string) :
  Js.split " " (Js.toString_hex buf ++ String " " rest)
  = Js.toString_hex buf :: Js.split " " rest.
Proof.
  induction buf as [|b buf IH].
  - cbn. by destruct (decide (" "%char = " "%char)).
  - cbn [Js.toString_hex]. cbv [String.append]. fold String.append.
    cbn [Js.split]. rewrite IH.
    destruct (decide (Js.hex_digit (Byte.to_N b mod 16) = " "%char)) as [Hsp|_];
      [by apply hex_digit_not_space in Hsp|].
    destruct (decide (Js.hex_digit (Byte.to_N b / 16) = " "%char)) as [Hsp|_];
      [by apply hex_digit_not_space in Hsp|].
    reflexivity.
Qed.

(** X12. The gate reads only the piece between the first and the second
    space of the header: a header "Bearer <token> <anything>" with a valid
    token reaches the route handler, whatever follows the token. *)
Theorem X12_text_after_token_ignored env st (buf : list Byte.byte) (rest : string) route :
  Js.toString_hex buf ∈ Booking.validTokens st →
  Booking.handle env st
    (Booking.Admin (Some ("Bearer " ++ Js.toString_hex buf ++ String " " rest)) route)
  = Booking.admin_route_handler route st.
Proof.
  intros Hin. cbn [Booking.handle]. unfold Booking.protected, Booking.authMiddleware.
  rewrite (startsWith_truthy "Bearer " ("Bearer " ++ Js.toString_hex buf ++ String " " rest))
    by (done || apply startsWith_bearer).
  cbn [from_option id]. rewrite startsWith_bearer, split_bearer_token, split_toString_hex_space.
  cbn [negb orb].
  change (("Bearer" :: Js.toString_hex buf :: Js.split " " rest) !! 1%nat)
    with (Some (Js.toString_hex buf)).
  cbn [Booking.has]. by rewrite bool_decide_true.
Qed.

Lemma X12_witness :
  Booking.handle None logged_in_state
    (Booking.Admin (Some "Bearer 2a2a2a2a2a2a2a2a2a2a2a2a2a2a2a2a and more") Booking.GetBookings)
  = (Booking.Response 200 (Booking.AllBookings (Booking.bookings logged_in_state)),
     logged_in_state).
Proof.
  apply (X12_text_after_token_ignored None logged_in_state (repeat Byte.x2a 16) "and more"
           Booking.GetBookings).
  vm_compute. set_solver.
Defined.

(** X13. A header with two spaces after "Bearer" presents the empty string as
    its token: unless the empty string is a valid token the request is
    answered 403, even when the text after the second space is a valid
    token. *)
Theorem X13_double_space_rejected env st (rest : string) route :
  "" ∉ Booking.validTokens st →
  Booking.handle env st (Booking.Admin (Some ("Bearer  " ++ rest)) route)
  = (Booking.Response 403 (Booking.Message "Invalid or expired token."), st).
Proof.
  intros Hnot. cbn [Booking.handle]. unfold Booking.protected.
  rewrite (authMiddleware_unknown_token st ("Bearer  " ++ rest) ""); [done | done | | done].
  change ("Bearer  " ++ rest) with ("Bearer " ++ String " " rest).
  rewrite split_bearer_token. cbn [Js.split].
  by destruct (decide (" "%char = " "%char)).
Qed.

Lemma X13_witness :
  Booking.handle None logged_in_state
    (Booking.Admin (Some "Bearer  2a2a2a2a2a2a2a2a2a2a2a2a2a2a2a2a") Booking.GetBookings)
  = (Booking.Response 403 (Booking.Message "Invalid or expired token."), logged_in_state).
Proof.
  apply (X13_double_space_rejected None logged_in_state "2a2a2a2a2a2a2a2a2a2a2a2a2a2a2a2a"
           Booking.GetBookings).
  vm_compute. set_solver.
Defined.

(** ** Updating overrides *)

(** X14. An override update that passes the gate but lacks the date (missing
    or empty) or the slots object is answered 400 and changes nothing. *)
Theorem X14_set_overrides_invalid_input env st authorization date
    (slots : option (gmap string bool)) :
  Booking.authMiddleware st authorization = None →
  absent_or_empty date ∨ slots = None →
  Booking.handle env st (Booking.Admin authorization (Booking.PostAvailability date slots))
  = (Booking.Response 400 (Booking.Message "Date and slots object are required."), st).
Proof.
  intros Hauth Hbad. cbn [Booking.handle]. unfold Booking.protected. rewrite Hauth.
  cbn [Booking.admin_route_handler]. unfold Booking.post_admin_availability.
  assert (Js.falsy date || bool_decide (slots = None) = true) as ->; [|done].
  destruct Hbad as [Hdate%falsy_true | ->].
  - by rewrite Hdate.
  - rewrite bool_decide_true by done. apply orb_true_r.
Qed.

Lemma X14_witness :
  Booking.handle None logged_in_state
    (Booking.Admin (Some admin_header)
       (Booking.PostAvailability (Some "") (Some {[ "08:00 AM - 09:00 AM" := true ]})))
  = (Booking.Response 400 (Booking.Message "Date and slots object are required."),
     logged_in_state).
Proof.
  apply (X14_set_overrides_invalid_input None logged_in_state (Some admin_header) (Some "")
           (Some {[ "08:00 AM - 09:00 AM" := true ]})).
  - vm_compute. reflexivity.
  - left. right. reflexivity.
Defined.

Lemma getStandardAvailability_cases (dateObj : Js.Date) :
  Booking.getStandardAvailability dateObj = []
  ∨ Booking.getStandardAvailability dateObj
    = ["08:00 AM - 09:00 AM"; "09:00 AM - 10:00 AM"; "10:00 AM - 11:00 AM"].
Proof.
  unfold Booking.getStandardAvailability.
  destruct (Js.strict_eq_number _ 0 || Js.strict_eq_number _ 6); auto.
Qed.

(** A well-formed date is not empty and names no inherited member. *)
Lemma date_regex_nonempty (d : string) : Js.regex_test Js.date_regex d = true → d ≠ "".
Proof. by intros Hd ->. Qed.





(** X17. An accepted override update for a well-formed date changes no other
    date's availability, and within the date it changes the availability of
    no slot that the patch does not mention. *)
Theorem X17_override_update_is_local env st authorization (d : string)
    (patch : gmap string bool) :
  Booking.authMiddleware st authorization = None →
  Js.regex_test Js.date_regex d = true →
  ∃ st1,
    Booking.handle env st
      (Booking.Admin authorization (Booking.PostAvailability (Some d) (Some patch)))
    = (Booking.Response 200 (Booking.Success ("Availability for " ++ d ++ " updated.")), st1)
    ∧ (∀ D', Js.regex_test Js.date_regex D' = true → D' ≠ d →
         Booking.availableTimes st1 D' = Booking.availableTimes st D')
    ∧ (∀ T, patch !! T = None →
         (In T (Booking.availableTimes st1 d) ↔ In T (Booking.availableTimes st d))).
Proof.
  intros Hauth Hdate.
  pose proof (date_regex_nonempty d Hdate) as Hd.
  pose proof (date_regex_not_inherited d Hdate) as Hown.
  eexists. split; [apply admin_patch_accepted; auto using get_not_Builtin|]. split.
  - intros D' _ HD'. unfold Booking.availableTimes.
    cbn [Booking.bookings Booking.availabilityOverrides]. by rewrite lookup_insert_ne.
  - intros T HT. rewrite !availableTimes_spec.
    assert (In T (Booking.getStandardAvailability (Js.new_Date_utc_midnight d)) →
            T ≠ "__proto__") as Hstd.
    { intros Hin ->.
      destruct (getStandardAvailability_cases (Js.new_Date_utc_midnight d)) as [Heq | Heq];
        rewrite Heq in Hin; cbn in Hin; intuition discriminate. }
    unfold Booking.booked, Booking.bookings_of. cbn [Booking.bookings].
    split; intros (Hin & Hov & Hbk); (split; [done|]); (split; [|done]);
      specialize (Hstd Hin);
      rewrite override_after_patch, decide_True, HT in * by done; done.
Qed.

Lemma X17_witness :
  Booking.availableTimes (Booking.handle None logged_in_state patch_request).2 "2025-10-29"
  = Booking.availableTimes logged_in_state "2025-10-29".
Proof.
  destruct (X17_override_update_is_local None logged_in_state (Some admin_header)
              "2025-10-28"
              {[ "08:00 AM - 09:00 AM" := true; "10:00 AM - 11:00 AM" := false ]})
    as (st1 & Hrun & Hother & _);
    [vm_compute; reflexivity | reflexivity |].
  unfold patch_request. rewrite Hrun. apply Hother; [reflexivity | discriminate].
Defined.

(** ** Bookings and listings *)



Lemma filter_sublist {A} (p : A → bool) (l : list A) : List.filter p l `sublist_of` l.
Proof.
  induction l as [|x l IH]; cbn; [constructor|].
  destruct (p x); by constructor.
Qed.




(** X20. On server.js the availability query answers every non-empty date
    string that names no member of [Object.prototype], of the form YYYY-MM-DD
    or not, with a subsequence of its four standard slots: order kept, nothing
    repeated, nothing added. *)
Theorem X20_serverjs_listing_is_subsequence st (D : string) :
  D ≠ "" →
  Js.inherited D = false →
  ∃ L,
    ServerJs.handle st (ServerJs.GetAvailability (Some D))
    = (ServerJs.Response 200 (ServerJs.AvailableTimes D L), st)
    ∧ L `sublist_of` ServerJs.getStandardAvailability
    ∧ NoDup L
    ∧ (length L <= 4)%nat.
Proof.
  intros HD Hown. eexists.
  split; [apply serverjs_get_availability_accepts; auto using get_not_Builtin|].
  assert (NoDup ServerJs.getStandardAvailability) as Hnodup.
  { unfold ServerJs.getStandardAvailability.
    repeat (apply NoDup_cons; split; [set_unfold; intuition discriminate|]).
    apply NoDup_nil_2. }
  split; [apply filter_sublist|]. split.
  - eapply sublist_NoDup; [exact Hnodup | apply filter_sublist].
  - apply (sublist_length _ ServerJs.getStandardAvailability), filter_sublist.
Qed.

Lemma X20_witness :
  ∃ L,
    ServerJs.handle ServerJs.init (ServerJs.GetAvailability (Some "next week"))
    = (ServerJs.Response 200 (ServerJs.AvailableTimes "next week" L), ServerJs.init)
    ∧ (length L <= 4)%nat.
Proof.
  destruct (X20_serverjs_listing_is_subsequence ServerJs.init "next week")
    as (L & Hrun & _ & _ & Hlen); [discriminate | reflexivity |].
  exists L. by split.
Defined.

(** X21. The booking lists only grow at their end: along any sequence of
    requests the records a date had before are still there, unchanged and in
    the same order, as a prefix of the date's list.  No request edits,
    reorders or removes a booking. *)
Theorem X21_bookings_append_only env st1 st2 (D : string) :
  Booking.steps env st1 st2 →
  Booking.bookings_of st1 D `prefix_of` Booking.bookings_of st2 D.
Proof.
  intros Hsteps. induction Hsteps as [|st2 r Hsteps IH]; [done|].
  etrans; [exact IH|]. unfold Booking.bookings_of.
  destruct (handle_bookings env st2 r) as [-> | (D' & T & n & e & a & notes & _ & ->)];
    [done|].
  destruct (decide (D' = D)) as [->|Hne].
  - rewrite lookup_insert_eq. cbn [from_option id]. by eexists.
  - by rewrite lookup_insert_ne.
Qed.

Lemma X21_witness :
  Booking.bookings_of tuesday_state "2025-10-28"
  `prefix_of` Booking.bookings_of
                (Booking.handle None tuesday_state
                   (Booking.PostBook
                      (BookBody (Some "2025-10-28") (Some "10:00 AM - 11:00 AM") (Some "B")
                         (Some "b@x.com") (Some "2 Main St") None))).2 "2025-10-28".
Proof.
  apply (X21_bookings_append_only None tuesday_state).
  apply Booking.steps_step, Booking.steps_refl.
Defined.

(** X22. The same on server.js: the booked times of a date only grow at the
    end of the list. *)
Theorem X22_serverjs_bookings_append_only st1 st2 (D : string) :
  ServerJs.steps st1 st2 →
  ServerJs.bookings_of st1 D `prefix_of` ServerJs.bookings_of st2 D.
Proof.
  intros Hsteps. induction Hsteps as [|st2 r Hsteps IH]; [done|].
  etrans; [exact IH|]. unfold ServerJs.bookings_of.
  destruct (serverjs_handle_bookings st2 r) as [-> | (D' & T & _ & ->)]; [done|].
  destruct (decide (D' = D)) as [->|Hne].
  - rewrite lookup_insert_eq. cbn [from_option id]. by eexists.
  - by rewrite lookup_insert_ne.
Qed.

Lemma X22_witness :
  ServerJs.bookings_of ServerJs.init "2025-10-28"
  `prefix_of` ServerJs.bookings_of
                (ServerJs.handle ServerJs.init (ServerJs.PostBook example_booking)).2
                "2025-10-28".
Proof.
  apply (X22_serverjs_bookings_append_only ServerJs.init).
  apply ServerJs.steps_step, ServerJs.steps_refl.
Defined.

(** ** Dates the query accepts *)

Lemma regex_test_length (re : list Js.atom) (s : string) :
  Js.regex_test re s = true → String.length s = length re.
Proof.
  revert s. induction re as [|a re IH]; intros [|c s]; cbn; try discriminate; [done|].
  intros [_ Hrest]%andb_true_iff. f_equal. by apply IH.
Qed.

(** X23. The date pattern is anchored at both ends: a date parameter that is
    not exactly ten characters long (a date followed by a time, by a newline,
    or padded with blanks) is answered 400. *)
Theorem X23_date_must_be_ten_characters env st (s : string) :
  String.length s ≠ 10%nat →
  Booking.handle env st (Booking.GetAvailability (Some s))
  = (Booking.Response 400 (Booking.Message "A valid date in YYYY-MM-DD format is required."),
     st).
Proof.
  intros Hlen. cbn [Booking.handle]. apply get_availability_rejects.
  change (default "" (Some s)) with s.
  destruct (Js.regex_test Js.date_regex s) eqn:Hs; [|apply orb_true_r].
  by apply regex_test_length in Hs.
Qed.

Lemma X23_witness :
  Booking.handle None Booking.init (Booking.GetAvailability (Some "2025-10-28T09:00"))
  = (Booking.Response 400 (Booking.Message "A valid date in YYYY-MM-DD format is required."),
     Booking.init).
Proof.
  apply (X23_date_must_be_ten_characters None Booking.init "2025-10-28T09:00").
  vm_compute. discriminate.
Defined.



(** ** What the admin listings show *)





(** ** Dates that name a member of [Object.prototype] *)

(** X30. A request whose date names a member of [Object.prototype]
    ("constructor", "toString", "__proto__", ...) and is no own key of the
    booking store makes the handler throw on the inherited built-in: the
    booking handler of either server and the availability query of server.js
    are answered 500, and nothing is stored. *)
Theorem X30_inherited_date_uncaught env st st' (D T n e a : string) notes :
  D ≠ "" → T ≠ "" → n ≠ "" → e ≠ "" → a ≠ "" →
  Js.inherited D = true →
  Booking.bookings st !! D = None →
  ServerJs.bookings st' !! D = None →
  Booking.handle env st
    (Booking.PostBook (BookBody (Some D) (Some T) (Some n) (Some e) (Some a) notes))
  = (Booking.Response 500 Booking.InternalServerError, st)
  ∧ ServerJs.handle st'
      (ServerJs.PostBook (BookBody (Some D) (Some T) (Some n) (Some e) (Some a) notes))
    = (ServerJs.Response 500 ServerJs.InternalServerError, st')
  ∧ ServerJs.handle st' (ServerJs.GetAvailability (Some D))
    = (ServerJs.Response 500 ServerJs.InternalServerError, st').
Proof.
  intros HD HT Hn He Ha Hinh Hnone Hnone'.
  assert (Js.get (Booking.bookings st) D = Js.Builtin) as Hget by (by apply get_Builtin).
  assert (Js.get (ServerJs.bookings st') D = Js.Builtin) as Hget' by (by apply get_Builtin).
  split; [|split].
  - by apply post_book_throws.
  - by apply serverjs_post_book_throws.
  - cbn [ServerJs.handle]. unfold ServerJs.get_availability.
    assert (Js.falsy (Some D) = false) as -> by (apply falsy_false; eauto).
    cbn [from_option id]. by rewrite Hget'.
Qed.

Lemma X30_witness :
  ServerJs.handle ServerJs.init (ServerJs.GetAvailability (Some "toString"))
  = (ServerJs.Response 500 ServerJs.InternalServerError, ServerJs.init).
Proof.
  apply (X30_inherited_date_uncaught None Booking.init ServerJs.init
           "toString" "midnight" "A" "a@x.com" "1 Main St" None);
    try discriminate; reflexivity.
Defined.
